(** * ceda_datapoint.core.cloud : clusters and cloud products

    A shallow embedding of [src/ceda_datapoint/core/cloud.py].  Python values
    are an inductive type, dictionaries are insertion-ordered association
    lists, exceptions are values of a sum type, and every call that leaves the
    process (HTTP, filesystem, fsspec, xarray) is answered by an oracle and
    recorded in a trace. *)

From Stdlib Require Import Bool Ascii String List ZArith Lia.
Import ListNotations.
Local Open Scope string_scope.
Local Open Scope Z_scope.

Set Implicit Arguments.

(** ** Python strings *)

Module PyStr.

(** The double-quote character, which the source writes inside
    single-quoted literals. *)
Definition dq : string := String "034"%char EmptyString.

(** [needle in s] for two strings. *)
Fixpoint contains (needle s : string) : bool :=
  match s with
  | EmptyString => String.eqb needle EmptyString
  | String _ s' => String.prefix needle s || contains needle s'
  end.

(** The scanning loop of [str.replace] for a non-empty pattern: [skip] counts
    the characters of a matched occurrence that are still to be dropped. *)
Fixpoint replace_scan (old new s : string) (skip : nat) : string :=
  match s with
  | EmptyString => EmptyString
  | String c s' =>
      match skip with
      | S k => replace_scan old new s' k
      | O =>
          if String.prefix old s
          then new ++ replace_scan old new s' (Nat.pred (String.length old))
          else String c (replace_scan old new s' O)
      end
  end.

(** With an empty pattern Python inserts [new] around every character. *)
Fixpoint intersperse (new s : string) : string :=
  match s with
  | EmptyString => new
  | String c s' => new ++ String c (intersperse new s')
  end.

(** [s.replace(old, new)]: every non-overlapping occurrence, left to right. *)
Definition replace (old new s : string) : string :=
  match old with
  | EmptyString => intersperse new s
  | String _ _ => replace_scan old new s O
  end.

End PyStr.

(** ** Python values *)

(** The JSON-shaped values that flow through the module: asset descriptors,
    keyword options, metadata and Kerchunk reference documents. *)
#[warnings="-register-all"]
Inductive pyval : Type :=
| PNone : pyval
| PBool : bool -> pyval
| PInt : Z -> pyval
| PStr : string -> pyval
| PList : list pyval -> pyval
| PDict : list (string * pyval) -> pyval.

(** Truth value of an object, as [not x] and [x or y] see it. *)
Definition truthy (v : pyval) : bool :=
  match v with
  | PNone => false
  | PBool b => b
  | PInt z => negb (z =? 0)
  | PStr s => negb (String.eqb s EmptyString)
  | PList l => match l with [] => false | _ => true end
  | PDict d => match d with [] => false | _ => true end
  end.

(** ** Dictionaries *)

(** Keys are compared with [==]; the class plays the part of the
    [__eq__]/[__hash__] protocol. *)
Class Key (K : Type) := { keqb : K -> K -> bool }.

#[export] Instance Key_string : Key string := {| keqb := String.eqb |}.

Definition opt_string_eqb (a b : option string) : bool :=
  match a, b with
  | None, None => true
  | Some x, Some y => String.eqb x y
  | _, _ => false
  end.

#[export] Instance Key_opt_string : Key (option string) :=
  {| keqb := opt_string_eqb |}.

Section Dict.
Context {K V : Type} `{Key K}.

(** An insertion-ordered dictionary. *)
Definition dict := list (K * V).

Definition keys (d : dict) : list K := map fst d.
Definition values (d : dict) : list V := map snd d.

(** [d.get(k)]: the binding of [k], if any. *)
Fixpoint dict_get (k : K) (d : dict) : option V :=
  match d with
  | [] => None
  | (k', v) :: d' => if keqb k k' then Some v else dict_get k d'
  end.

(** [k in d]. *)
Definition dict_mem (k : K) (d : dict) : bool :=
  match dict_get k d with Some _ => true | None => false end.

(** [d[k] = v]: an existing key keeps its position, a new key is appended. *)
Fixpoint dict_set (k : K) (v : V) (d : dict) : dict :=
  match d with
  | [] => [(k, v)]
  | (k', v') :: d' =>
      if keqb k k' then (k', v) :: d' else (k', v') :: dict_set k v d'
  end.

(** [a | b]: the bindings of [b] are written over a copy of [a], in order. *)
Definition dict_union (a b : dict) : dict :=
  fold_left (fun acc kv => dict_set (fst kv) (snd kv) acc) b a.

(** [del d[k]] for a key that may be absent ([d.pop(k, None)]). *)
Fixpoint dict_remove (k : K) (d : dict) : dict :=
  match d with
  | [] => []
  | (k', v') :: d' =>
      if keqb k k' then d' else (k', v') :: dict_remove k d'
  end.

(** The invariant of every dictionary object: no key occurs twice. *)
Definition dict_wf (d : dict) : Prop := NoDup (keys d).
End Dict.

Arguments dict K V : clear implicits.

Definition pydict : Type := dict string pyval.

(** [x or {}] applied to the result of [d.get(k)]. *)
Definition or_empty (v : option pyval) : pyval :=
  match v with
  | Some x => if truthy x then x else PDict []
  | None => PDict []
  end.

(** ** Exceptions, results and the outside world *)

(** An f-string: literal text and formatted values, in order. *)
Inductive fragment : Type :=
| Lit : string -> fragment
| Fmt : pyval -> fragment.

Definition message := list fragment.

(** Formatting of an identifier that may be [None]. *)
Definition fmt_id (i : option string) : fragment :=
  match i with Some s => Fmt (PStr s) | None => Fmt PNone end.

(** Whether some literal part of the message contains [s]. *)
Definition names (s : string) (m : message) : bool :=
  existsb (fun f => match f with Lit t => PyStr.contains s t | Fmt _ => false end) m.

(** The exception classes the module raises or tells apart; [OtherError]
    stands for any class that descends from none of them. *)
Inductive exn : Type :=
| ValueError : message -> exn
| TypeError : exn
| KeyError : string -> exn
| IndexError : message -> exn
| AttributeError : exn
| NameError : exn
| NotImplementedError : message -> exn
| FileNotFoundError : message -> exn
| OtherError : string -> exn.

Inductive result (A : Type) : Type :=
| Raise : exn -> result A
| Return : A -> result A.
Arguments Raise {A} _.
Arguments Return {A} _.

(** What [requests.get] hands back. *)
Record response := { status_code : Z; text : string }.

(** Handles owned by fsspec and xarray. *)
Inductive mapper := Mapper (n : nat).
Inductive dataset := Dataset (n : nat).

(** Calls that leave the process, with their arguments. *)
Inductive event : Type :=
| EvHead : pyval -> event
| EvGet : string -> event
| EvIsFile : string -> event
| EvLoadFile : string -> event
| EvGetMapper : pyval -> pydict -> event
| EvOpenZarr : mapper -> pydict -> event
| EvOpenDataset : pyval -> pyval -> pydict -> event.

(** The world: external calls made so far (newest first) and the warnings
    written to the module logger (newest first). *)
Record world := { calls : list event; log : list message }.

Definition clock (w : world) : nat := List.length (calls w).

Definition record_call (ev : event) (w : world) : world :=
  {| calls := ev :: calls w; log := log w |}.

Definition record_warning (m : message) (w : world) : world :=
  {| calls := calls w; log := m :: log w |}.

(** The collaborators.  Each answer may depend on the moment of the call (the
    number of earlier external calls) and may itself be an exception.
    [hash_id] belongs to [ceda_datapoint.utils], which is not among the
    sources at hand: it is taken as given, and like the other collaborators
    it may raise, as it does when handed [None]. *)
Record Env := {
  requests_head : nat -> pyval -> result Z;
  requests_get : nat -> string -> result response;
  os_path_isfile : nat -> string -> bool;
  json_load_file : nat -> string -> result pyval;
  json_loads : string -> result pyval;
  fsspec_get_mapper : nat -> pyval -> pydict -> result mapper;
  xr_open_zarr : nat -> mapper -> pydict -> result dataset;
  xr_open_dataset : nat -> pyval -> pyval -> pydict -> result dataset;
  hash_id : option string -> result pyval
}.

(** ** The state-and-exception monad *)

Definition M (S A : Type) : Type := S -> result A * S.

Definition ret {S A} (a : A) : M S A := fun s => (Return a, s).
Definition raise {S A} (e : exn) : M S A := fun s => (Raise e, s).
Definition bind {S A B} (m : M S A) (k : A -> M S B) : M S B :=
  fun s => match m s with
           | (Raise e, s') => (Raise e, s')
           | (Return a, s') => k a s'
           end.
Definition lift_result {S A} (r : result A) : M S A := fun s => (r, s).

(** [try: m except ...: h] where [h] decides per exception. *)
Definition catch {S A} (m : M S A) (h : exn -> M S A) : M S A :=
  fun s => match m s with
           | (Raise e, s') => h e s'
           | (Return a, s') => (Return a, s')
           end.

Declare Scope py_scope.
Delimit Scope py_scope with py.
Notation "x <- c ;; k" := (bind c (fun x => k))
  (at level 61, c at next level, right associativity) : py_scope.
Notation "c ;;; k" := (bind c (fun _ => k))
  (at level 61, right associativity) : py_scope.
Local Open Scope py_scope.

Section Collaborators.
Variable E : Env.

Definition call_head (url : pyval) : M world Z :=
  fun w => (requests_head E (clock w) url, record_call (EvHead url) w).
Definition call_get (url : string) : M world response :=
  fun w => (requests_get E (clock w) url, record_call (EvGet url) w).
Definition call_isfile (path : string) : M world bool :=
  fun w => (Return (os_path_isfile E (clock w) path), record_call (EvIsFile path) w).
Definition call_load_file (path : string) : M world pyval :=
  fun w => (json_load_file E (clock w) path, record_call (EvLoadFile path) w).
Definition call_get_mapper (fo : pyval) (kw : pydict) : M world mapper :=
  fun w => (fsspec_get_mapper E (clock w) fo kw, record_call (EvGetMapper fo kw) w).
Definition call_open_zarr (m : mapper) (kw : pydict) : M world dataset :=
  fun w => (xr_open_zarr E (clock w) m kw, record_call (EvOpenZarr m kw) w).
Definition call_open_dataset (href cfa : pyval) (kw : pydict) : M world dataset :=
  fun w => (xr_open_dataset E (clock w) href cfa kw,
            record_call (EvOpenDataset href cfa kw) w).
End Collaborators.

Definition warning (m : message) : M world unit :=
  fun w => (Return tt, record_warning m w).

(** An object method sees its own fields and the world. *)
Definition io {S A} (m : M world A) : M (S * world) A :=
  fun st => let '(r, w') := m (snd st) in (r, (fst st, w')).
Definition get_self {S} : M (S * world) S :=
  fun st => (Return (fst st), st).
Definition put_self {S} (s : S) : M (S * world) unit :=
  fun st => (Return tt, (s, snd st)).

(** ** Operators on values *)

(** [needle in v] for a string [needle]: substring test on a string,
    membership on a list, key test on a dictionary, [TypeError] otherwise. *)
Definition py_in (needle : string) (v : pyval) : result bool :=
  match v with
  | PStr s => Return (PyStr.contains needle s)
  | PList l =>
      Return (existsb (fun x => match x with
                                | PStr t => String.eqb needle t
                                | _ => false
                                end) l)
  | PDict d => Return (dict_mem needle d)
  | _ => Raise TypeError
  end.

(** [v.replace(old, new)]: only strings have the method. *)
Definition py_replace (old new : string) (v : pyval) : result string :=
  match v with
  | PStr s => Return (PyStr.replace old new s)
  | _ => Raise AttributeError
  end.

(** [v | d] with a dictionary on the right. *)
Definition py_or_dict (v : pyval) (d : pydict) : result pydict :=
  match v with
  | PDict a => Return (dict_union a d)
  | _ => Raise TypeError
  end.

(** [**v] in a call: the argument must be a mapping. *)
Definition py_splat (v : pyval) : result pydict :=
  match v with
  | PDict d => Return d
  | _ => Raise TypeError
  end.

(** The largest index-sized integer ([sys.maxsize]) of a 64-bit build. *)
Definition ssize_max : Z := 2 ^ 63 - 1.

(** [l[i]] on a list: an integer that does not fit the index size is refused
    first; then negative positions count from the end. *)
Definition list_index {A} (l : list A) (i : Z) : result A :=
  if (i <? - ssize_max - 1) || (ssize_max <? i)
  then Raise (IndexError [Lit "cannot fit 'int' into an index-sized integer"])
  else
    let n := Z.of_nat (List.length l) in
    let j := if i <? 0 then i + n else i in
    if (j <? 0) || (n <=? j)
    then Raise (IndexError [Lit "list index out of range"])
    else match nth_error l (Z.to_nat j) with
         | Some x => Return x
         | None => Raise (IndexError [Lit "list index out of range"])
         end.

Definition of_id (i : option string) : pyval :=
  match i with Some s => PStr s | None => PNone end.

(** ** Module-level helpers *)

(** [_zarr_kwargs_default(add_kwargs)]: [defaults | add_kwargs]. *)
Definition _zarr_kwargs_default (add_kwargs : pyval) : result pydict :=
  let defaults : pydict := [("consolidated", PBool false)] in
  match add_kwargs with
  | PDict a => Return (dict_union defaults a)
  | _ => Raise TypeError
  end.

(** The body of the loop over [refs['refs'].keys()]: [inner] is the object
    [refs['refs']], updated in place. *)
Definition rewrite_step (key : string) (inner : pydict) : result pydict :=
  match dict_get key inner with
  | None => Raise (KeyError key)
  | Some (PList [a; b; c]) =>
      match py_in "https://" a with
      | Raise e => Raise e
      | Return false => Return inner
      | Return true =>
          match py_replace "https://dap.ceda.ac.uk/" "/" a with
          | Raise e => Raise e
          | Return a' => Return (dict_set key (PList [PStr a'; b; c]) inner)
          end
      end
  | Some _ => Return inner
  end.

Fixpoint rewrite_loop (ks : list string) (inner : pydict) : result pydict :=
  match ks with
  | [] => Return inner
  | k :: ks' =>
      match rewrite_step k inner with
      | Raise e => Raise e
      | Return inner' => rewrite_loop ks' inner'
      end
  end.

(** Lines 397-403: the find/replace over [refs['refs']], returning [refs]. *)
Definition rewrite_refs (refs : pyval) : result pyval :=
  match refs with
  | PDict top =>
      match dict_get "refs" top with
      | None => Raise (KeyError "refs")
      | Some (PDict inner) =>
          match rewrite_loop (keys inner) inner with
          | Raise e => Raise e
          | Return inner' => Return (PDict (dict_set "refs" (PDict inner') top))
          end
      | Some _ => Raise AttributeError
      end
  | _ => Raise TypeError
  end.

(** The variables of the retry loop. *)
Record fetch_state := {
  attempts : Z;
  success : bool;
  resp : option response
}.

Section Fetch.
Variable E : Env.

(** [while attempts < 3 and not success]: [budget] bounds the number of
    iterations; three is enough since [attempts] starts at 0. *)
Fixpoint fetch_loop (budget : nat) (href : string) (st : fetch_state)
  : M world fetch_state :=
  if (attempts st <? 3) && negb (success st) then
    match budget with
    | O => ret st
    | S b =>
        r <- call_get E href ;;
        fetch_loop b href
          {| attempts := attempts st + 1;
             success := if status_code r =? 200 then true else success st;
             resp := Some r |}
    end
  else ret st.

Definition download_failed (href : string) : message :=
  [Lit "File "; Fmt (PStr href);
   Lit ": Download unsuccessful - could not download the file successfully (tried 3 times)"].

(** [_fetch_kerchunk_make_local(href)]. *)
Definition _fetch_kerchunk_make_local (href : pyval) : M world pyval :=
  match href with
  | PStr h =>
      let href_local := PyStr.replace "https://dap.ceda.ac.uk" "" h in
      present <- call_isfile E href_local ;;
      refs <- (if negb present then
                 st <- fetch_loop 3 h {| attempts := 0; success := false; resp := None |} ;;
                 if (3 <=? attempts st) && negb (success st)
                 then raise (ValueError (download_failed h))
                 else match resp st with
                      | Some r => lift_result (json_loads E (text r))
                      | None => raise NameError
                      end
               else call_load_file E href_local) ;;
      lift_result (rewrite_refs refs)
  | _ => raise AttributeError
  end.
End Fetch.

(** ** DataPointCloudProduct *)

Module DataPointCloudProduct.

Record product := {
  _id : option string;
  _order : pyval;
  _cloud_format : option string;
  _asset_stac : pydict;
  _meta : pydict;
  _stac_attrs : pyval;
  _properties : pyval;
  visibility : string
}.

Definition set_visibility (v : string) (p : product) : product :=
  {| _id := _id p; _order := _order p; _cloud_format := _cloud_format p;
     _asset_stac := _asset_stac p; _meta := _meta p;
     _stac_attrs := _stac_attrs p; _properties := _properties p;
     visibility := v |}.

(** Modelled from the spec: the [id] accessor comes from [PropertiesMixin]
    (module [ceda_datapoint.mixins], not part of the sources at hand); the
    spec's data model has it return the product's stored identifier. *)
Definition id (p : product) : option string := _id p.

Definition method (A : Type) : Type := M (product * world) A.

(** The read-only [cloud_format] property. *)
Definition cloud_format (p : product) : option string := _cloud_format p.

(** The read-only [href] property: [self._asset_stac['href']]. *)
Definition href : method pyval :=
  self <- get_self ;;
  match dict_get "href" (_asset_stac self) with
  | Some h => ret h
  | None => raise (KeyError "href")
  end.

(** [not self._cloud_format]. *)
Definition format_unset (cf : option string) : bool :=
  match cf with
  | None => true
  | Some s => String.eqb s EmptyString
  end.

Definition format_is (cf : option string) (s : string) : bool :=
  match cf with
  | None => false
  | Some t => String.eqb t s
  end.

Definition no_format_message : message :=
  [Lit "No cloud format given for this dataset"].
Definition local_only_message : message :=
  [Lit "Href not reachable via https, please use `local_only=True` to open this dataset."].
Definition unknown_format_message : message :=
  [Lit ("Cloud format not recognised - must be one of (" ++ PyStr.dq ++ "kerchunk"
        ++ PyStr.dq ++ ", " ++ PyStr.dq ++ "CFA" ++ PyStr.dq ++ ")")].
Definition no_href_message : message :=
  [Lit ("Cloud assets with no " ++ PyStr.dq ++ "href" ++ PyStr.dq ++ " are not supported")].
Definition mode_message : message :=
  [Lit ("Only " ++ PyStr.dq ++ "xarray" ++ PyStr.dq
        ++ " mode currently implemented - cf-python is a future option")].

Section Methods.
Variable E : Env.

(** [_set_visibility]: the remote probe, then the local check unless the
    probe answered 200. *)
Definition _set_visibility : method unit :=
  h <- href ;;
  remote <- lift_result (py_in "https://" h) ;;
  check_local <-
    (if remote then
       h1 <- href ;;
       status <- io (call_head E h1) ;;
       if negb (status =? 200) then
         self <- get_self ;;
         put_self (set_visibility "local-only" self) ;;;
         ret true
       else ret false
     else ret true) ;;
  if check_local then
    h' <- href ;;
    local_ref <- lift_result (py_replace "https://dap.ceda.ac.uk" "" h') ;;
    present <- io (call_isfile E local_ref) ;;
    if negb present then
      self <- get_self ;;
      put_self (set_visibility "unreachable" self)
    else ret tt
  else ret tt.

(** [__init__]: the constructed object, or the exception that left the
    constructor. *)
Definition __init__ (asset_stac : pydict) (id cf : option string)
    (order : pyval) (mode : string) (meta stac_attrs properties : pyval)
  : M world product :=
  if negb (String.eqb mode "xarray") then raise (NotImplementedError mode_message)
  else
    m <- lift_result
           (py_or_dict meta [("asset_id", of_id id); ("cloud_format", of_id cf)]) ;;
    let self :=
      {| _id := id; _order := order; _cloud_format := cf;
         _asset_stac := asset_stac; _meta := m;
         _stac_attrs := stac_attrs; _properties := properties;
         visibility := "all" |} in
    fun w =>
      match _set_visibility (self, w) with
      | (Raise e, (_, w')) => (Raise e, w')
      | (Return _, (self', w')) => (Return self', w')
      end.

(** [_open_kerchunk(local_only, **kwargs)]. *)
Definition _open_kerchunk (local_only : bool) (kwargs : pydict) : method dataset :=
  self <- get_self ;;
  match dict_get "href" (_asset_stac self) with
  | None => raise (ValueError no_href_message)
  | Some href =>
      let mapper_kwargs := or_empty (dict_get "mapper_kwargs" (_asset_stac self)) in
      let open_zarr_kwargs := or_empty (dict_get "open_zarr_kwargs" (_asset_stac self)) in
      href <- (if local_only then io (_fetch_kerchunk_make_local E href) else ret href) ;;
      mkw <- lift_result (py_splat mapper_kwargs) ;;
      (if dict_mem "fo" mkw then raise TypeError else ret tt) ;;;
      mapper <- io (call_get_mapper E href mkw) ;;
      defaults <- lift_result (_zarr_kwargs_default open_zarr_kwargs) ;;
      let zarr_kwargs := dict_union defaults kwargs in
      io (call_open_zarr E mapper zarr_kwargs)
  end.

(** [_open_cfa(cfa_options=None, **kwargs)]: the parameter [cfa_options]
    takes its keyword out of the caller's options. *)
Definition _open_cfa (kwargs : pydict) : method dataset :=
  self <- get_self ;;
  let cfa_options := or_empty (dict_get "cfa_options" kwargs) in
  let kwargs := dict_remove "cfa_options" kwargs in
  match dict_get "href" (_asset_stac self) with
  | None => raise (ValueError no_href_message)
  | Some href =>
      open_xarray_kwargs <-
        lift_result (py_or_dict
                       (or_empty (dict_get "open_xarray_kwargs" (_asset_stac self)))
                       kwargs) ;;
      (if dict_mem "engine" open_xarray_kwargs || dict_mem "cfa_options" open_xarray_kwargs
       then raise TypeError else ret tt) ;;;
      io (call_open_dataset E href cfa_options open_xarray_kwargs)
  end.

(** [open_dataset(local_only=False, **kwargs)]. *)
Definition open_dataset (local_only : bool) (kwargs : pydict) : method dataset :=
  self <- get_self ;;
  if format_unset (_cloud_format self) then raise (ValueError no_format_message)
  else if String.eqb (visibility self) "local-only" && negb local_only
  then raise (ValueError local_only_message)
  else
    catch
      (if format_is (_cloud_format self) "kerchunk" then _open_kerchunk local_only kwargs
       else if format_is (_cloud_format self) "CFA" then _open_cfa kwargs
       else raise (ValueError unknown_format_message))
      (fun err =>
         match err with
         | ValueError _ => raise err
         | FileNotFoundError _ =>
             self <- get_self ;;
             match dict_get "href" (_asset_stac self) with
             | Some h =>
                 raise (FileNotFoundError
                          [Lit "The requested resource could not be located: "; Fmt h])
             | None => raise (KeyError "href")
             end
         | _ => raise err
         end).
End Methods.

End DataPointCloudProduct.

(** ** DataPointCluster *)

Module DataPointCluster.
Import DataPointCloudProduct.

Record cluster := {
  _id : message;
  _local_only : bool;
  show_unreachable : bool;
  _products : dict (option string) product;
  _meta : pydict
}.

(** What the list handed to the constructor may hold. *)
Inductive entry : Type :=
| EProduct : product -> entry
| ECluster : cluster -> entry
| ENone : entry.

(** What [cluster[...]] and [open_dataset] accept: a position or an id. *)
Inductive index : Type :=
| Pos : Z -> index
| Id : option string -> index.

Definition method (A : Type) : Type := M (cluster * world) A.

(** The [products] property: the products that are not hidden. *)
Definition products (c : cluster) : list product :=
  filter (fun v => negb (String.eqb (visibility v) "unreachable") || show_unreachable c)
         (values (_products c)).

(** One round of the constructor's loop over [products]. *)
Definition add_entry (acc : dict (option string) product) (p : entry)
  : dict (option string) product :=
  match p with
  | ECluster c =>
      fold_left (fun acc sub_p => dict_set (id sub_p) sub_p acc) (products c) acc
  | EProduct q => dict_set (id q) q acc
  | ENone => acc
  end.

Definition not_found_products (i : fragment) : message :=
  [Lit PyStr.dq; i; Lit (PyStr.dq ++ " not found in available products.")].
Definition not_found_datasets (i : fragment) : message :=
  [Lit PyStr.dq; i; Lit (PyStr.dq ++ " not found in available datasets.")].

(** [__getitem__(index)]. *)
Definition __getitem__ (self : cluster) (i : index) : result product :=
  let resolved :=
    match i with
    | Pos z => list_index (keys (_products self)) z
    | Id k => Return k
    end in
  match resolved with
  | Raise e => Raise e
  | Return k =>
      match dict_get k (_products self) with
      | None => Raise (IndexError (not_found_products (fmt_id k)))
      | Some p => Return p
      end
  end.

Section Methods.
Variable E : Env.

(** [__init__(products, parent_id, meta, local_only, show_unreachable)]:
    the id is computed first, so an exception of [hash_id] leaves the
    constructor before anything is stored. *)
Definition __init__ (entries : list entry) (parent_id : option string)
    (meta : pyval) (local_only show_unreachable : bool) : result cluster :=
  match hash_id E parent_id with
  | Raise e => Raise e
  | Return hashed =>
      let meta := if truthy meta then meta else PDict [] in
      let prods := fold_left add_entry entries [] in
      match meta with
      | PDict m =>
          Return {| _id := [fmt_id parent_id; Lit "-"; Fmt hashed];
                    _local_only := local_only;
                    show_unreachable := show_unreachable;
                    _products := prods;
                    _meta := dict_set "products" (PInt (Z.of_nat (List.length entries))) m |}
      | _ => Raise TypeError
      end
  end.

(** [open_dataset(id, mode='xarray', local_only=False, **kwargs)]; the
    answer [None] of the source is [None] here.  The product found is an
    object shared with the mapping, so its state after the call is stored
    back. *)
Definition open_dataset (i : index) (mode : string) (local_only : bool)
    (kwargs : pydict) : method (option dataset) :=
  if negb (String.eqb mode "xarray") then raise (NotImplementedError mode_message)
  else
    self <- get_self ;;
    let local_only := local_only || _local_only self in
    k <- lift_result (match i with
                      | Pos z => list_index (keys (_products self)) z
                      | Id k => Return k
                      end) ;;
    match dict_get k (_products self) with
    | None =>
        io (warning (not_found_datasets (fmt_id k))) ;;;
        ret None
    | Some product =>
        fun st =>
          let '(r, (product', w')) :=
            DataPointCloudProduct.open_dataset E local_only kwargs (product, snd st) in
          let self' :=
            {| _id := _id (fst st); _local_only := _local_only (fst st);
               show_unreachable := show_unreachable (fst st);
               _products := dict_set k product' (_products (fst st));
               _meta := _meta (fst st) |} in
          (match r with
           | Raise e => Raise e
           | Return d => Return (Some d)
           end, (self', w'))
    end.

(** [open_datasets()]. *)
Definition open_datasets : method dataset :=
  raise (NotImplementedError
           [Lit (PyStr.dq ++ "Combine" ++ PyStr.dq ++ " feature has not yet been implemented")]).
End Methods.

End DataPointCluster.

Module P := DataPointCloudProduct.
Module C := DataPointCluster.

(** A caller that opens one product several times, each time with its own
    arguments, whatever the outcome of the earlier calls. *)
Fixpoint open_many (E : Env) (args : list (bool * pydict)) (st : P.product * world)
  : list (result dataset) * (P.product * world) :=
  match args with
  | [] => ([], st)
  | (local_only, kwargs) :: rest =>
      let '(r, st') := P.open_dataset E local_only kwargs st in
      let '(rs, st'') := open_many E rest st' in
      (r :: rs, st'')
  end.

(** A method that leaves every field of its object as it found it. *)
Definition keeps_self {A} (m : P.method A) : Prop :=
  forall p w, fst (snd (m (p, w))) = p.

(** The world after [n] further GET requests for [url]. *)
Definition after_gets (url : string) (n : nat) (w : world) : world :=
  {| calls := (repeat (EvGet url) n ++ calls w)%list; log := log w |}.

(** The rewriting rule in the words of the spec: a 3-element sequence whose
    first element is a URL has the prefix [https://dap.ceda.ac.uk/] of that
    URL replaced by [/]; any other value is left as it is. *)
Definition localized (v : pyval) : pyval :=
  match v with
  | PList [PStr u; offset; length] =>
      PList [PStr (PyStr.replace "https://dap.ceda.ac.uk/" "/" u); offset; length]
  | _ => v
  end.

Definition is_triple (v : pyval) : bool :=
  match v with
  | PList [_; _; _] => true
  | _ => false
  end.

(** A [refs] mapping of a Kerchunk reference document: every 3-element
    sequence in it is [[url, offset, length]], with a string for the URL. *)
Definition kerchunk_refs (inner : pydict) : Prop :=
  forall k a b c, dict_get k inner = Some (PList [a; b; c]) -> exists u, a = PStr u.

(** The products an entry of the constructor's list stands for, in the words
    of the spec: a product stands for itself, a nested cluster for the
    products its [products] view lists, [None] for nothing. *)
Definition entry_products (e : C.entry) : list P.product :=
  match e with
  | C.EProduct q => [q]
  | C.ECluster x => C.products x
  | C.ENone => []
  end.

Definition flattened (entries : list C.entry) : list P.product :=
  flat_map entry_products entries.

(** Last write wins: the product stored under [k] is the last one of the
    sequence that carries the id [k]. *)
Definition last_with_id (k : option string) (l : list P.product) : option P.product :=
  find (fun q => keqb k (P.id q)) (rev l).

(** The object the product constructor builds from its arguments and a
    mapping [meta], with visibility [vis]. *)
Definition constructed (asset_stac : pydict) (id cf : option string)
    (order : pyval) (meta : pydict) (stac_attrs properties : pyval) (vis : string)
  : P.product :=
  {| P._id := id; P._order := order; P._cloud_format := cf;
     P._asset_stac := asset_stac;
     P._meta := dict_union meta [("asset_id", of_id id); ("cloud_format", of_id cf)];
     P._stac_attrs := stac_attrs; P._properties := properties;
     P.visibility := vis |}.

(** Every binding of a product mapping is a product under its own id. *)
Definition keyed_by_id (d : dict (option string) P.product) : Prop :=
  forall k p, In (k, p) d -> P.id p = k.

(** * Sample collaborators and inputs *)

Module Samples.

(** A [hash_id] that, like the real one, cannot digest [None]. *)
Definition sample_hash_id (parent_id : option string) : result pyval :=
  match parent_id with
  | Some _ => Return (PStr "0")
  | None => Raise TypeError
  end.

(** A host that answers every request with 404, a disk without files, and
    libraries that find nothing. *)
Definition env_offline : Env :=
  {| requests_head := fun _ _ => Return 404;
     requests_get := fun _ _ => Return {| status_code := 404; text := "" |};
     os_path_isfile := fun _ _ => false;
     json_load_file := fun _ _ => Raise (FileNotFoundError []);
     json_loads := fun _ => Raise (ValueError [Lit "Expecting value"]);
     fsspec_get_mapper := fun _ _ _ => Return (Mapper 0);
     xr_open_zarr := fun _ _ _ => Raise (FileNotFoundError []);
     xr_open_dataset := fun _ _ _ _ => Raise (FileNotFoundError []);
     hash_id := sample_hash_id |}.

(** The same host, with every file present on the local disk. *)
Definition env_local : Env :=
  {| requests_head := fun _ _ => Return 404;
     requests_get := fun _ _ => Return {| status_code := 404; text := "" |};
     os_path_isfile := fun _ _ => true;
     json_load_file := fun _ _ => Return (PDict [("refs", PDict [])]);
     json_loads := fun _ => Raise (ValueError [Lit "Expecting value"]);
     fsspec_get_mapper := fun _ _ _ => Return (Mapper 0);
     xr_open_zarr := fun _ _ _ => Return (Dataset 0);
     xr_open_dataset := fun _ _ _ _ => Return (Dataset 0);
     hash_id := sample_hash_id |}.

(** The reference document of the spec's example. *)
Definition refs_doc : pyval :=
  PDict [("refs", PDict [("a", PList [PStr "https://dap.ceda.ac.uk/x/y"; PInt 10; PInt 20]);
                         ("b", PStr "scalar")])].

(** A host that answers the second GET with 200 and the document above, and
    503 before and after; no file is present locally. *)
Definition env_flaky : Env :=
  {| requests_head := fun _ _ => Return 200;
     requests_get := fun n _ =>
       if Nat.eqb n 2 then Return {| status_code := 200; text := "doc" |}
       else Return {| status_code := 503; text := "" |};
     os_path_isfile := fun _ _ => false;
     json_load_file := fun _ _ => Raise (FileNotFoundError []);
     json_loads := fun t =>
       if String.eqb t "doc" then Return refs_doc
       else Raise (ValueError [Lit "Expecting value"]);
     fsspec_get_mapper := fun _ _ _ => Return (Mapper 0);
     xr_open_zarr := fun _ _ _ => Return (Dataset 0);
     xr_open_dataset := fun _ _ _ _ => Return (Dataset 0);
     hash_id := sample_hash_id |}.

Definition w0 : world := {| calls := []; log := [] |}.

Definition remote_href : string := "https://dap.ceda.ac.uk/x/y.json".

Definition asset_remote : pydict := [("href", PStr remote_href)].

(** A product as the constructor leaves it. *)
Definition product_of (i cf : option string) (vis : string) : P.product :=
  {| P._id := i; P._order := PNone; P._cloud_format := cf;
     P._asset_stac := asset_remote;
     P._meta := [("asset_id", of_id i); ("cloud_format", of_id cf)];
     P._stac_attrs := PNone; P._properties := PNone;
     P.visibility := vis |}.

(** An asset that brings its own options for [xr.open_zarr]. *)
Definition asset_with_options : pydict :=
  [("href", PStr remote_href);
   ("open_zarr_kwargs", PDict [("consolidated", PBool true); ("decode_times", PBool false)])].

Definition product_with_options : P.product :=
  {| P._id := Some "a"; P._order := PNone; P._cloud_format := Some "kerchunk";
     P._asset_stac := asset_with_options;
     P._meta := [("asset_id", PStr "a"); ("cloud_format", PStr "kerchunk")];
     P._stac_attrs := PNone; P._properties := PNone;
     P.visibility := "all" |}.

(** A cluster of two reachable products, as its constructor leaves it. *)
Definition cluster_ab : C.cluster :=
  {| C._id := [Fmt (PStr "item"); Lit "-"; Fmt (PStr "0")];
     C._local_only := false;
     C.show_unreachable := false;
     C._products := [(Some "a", product_of (Some "a") (Some "kerchunk") "all");
                     (Some "b", product_of (Some "b") (Some "CFA") "all")];
     C._meta := [("products", PInt 2)] |}.

(** A nested cluster holding a product that was found unreachable, next to a
    reachable one; unreachable products are hidden ([show_unreachable] is
    off). *)
Definition cluster_hidden : C.cluster :=
  {| C._id := [Fmt (PStr "item"); Lit "-"; Fmt (PStr "0")];
     C._local_only := false;
     C.show_unreachable := false;
     C._products := [(Some "b", product_of (Some "b") (Some "kerchunk") "unreachable");
                     (Some "c", product_of (Some "c") (Some "CFA") "all")];
     C._meta := [("products", PInt 2)] |}.

(** The nested cluster of the spec's example, whose first product shares its
    id with a product listed before the cluster. *)
Definition cluster_x : C.cluster :=
  {| C._id := [Fmt (PStr "item"); Lit "-"; Fmt (PStr "0")];
     C._local_only := false;
     C.show_unreachable := false;
     C._products := [(Some "a", product_of (Some "a") (Some "CFA") "all");
                     (Some "c", product_of (Some "c") (Some "CFA") "all")];
     C._meta := [("products", PInt 2)] |}.

(** An asset that lives on the local disk. *)
Definition local_path : string := "/badc/x/y.json".
Definition asset_local : pydict := [("href", PStr local_path)].

(** No network: every request raises a connection error; files are present
    and hold an empty reference document. *)
Definition env_no_network : Env :=
  {| requests_head := fun _ _ => Raise (OtherError "ConnectionError");
     requests_get := fun _ _ => Raise (OtherError "ConnectionError");
     os_path_isfile := fun _ _ => true;
     json_load_file := fun _ _ => Return (PDict [("refs", PDict [])]);
     json_loads := fun _ => Raise (ValueError [Lit "Expecting value"]);
     fsspec_get_mapper := fun _ _ _ => Return (Mapper 0);
     xr_open_zarr := fun _ _ _ => Return (Dataset 0);
     xr_open_dataset := fun _ _ _ _ => Return (Dataset 0);
     hash_id := sample_hash_id |}.

(** A product state whose asset descriptor carries options but no href. *)
Definition product_without_href (cf : string) : P.product :=
  {| P._id := Some "a"; P._order := PNone; P._cloud_format := Some cf;
     P._asset_stac := [("open_zarr_kwargs", PDict [])];
     P._meta := [("asset_id", PStr "a"); ("cloud_format", PStr cf)];
     P._stac_attrs := PNone; P._properties := PNone;
     P.visibility := "all" |}.

(** A CFA product whose asset brings options for [xr.open_dataset]. *)
Definition product_cfa : P.product :=
  {| P._id := Some "a"; P._order := PNone; P._cloud_format := Some "CFA";
     P._asset_stac := [("href", PStr local_path);
                       ("open_xarray_kwargs",
                        PDict [("decode_times", PBool false); ("chunks", PStr "auto")])];
     P._meta := [("asset_id", PStr "a"); ("cloud_format", PStr "CFA")];
     P._stac_attrs := PNone; P._properties := PNone;
     P.visibility := "all" |}.

(** A kerchunk product whose asset tries to set the mapper's [fo] itself. *)
Definition product_fo_clash : P.product :=
  {| P._id := Some "a"; P._order := PNone; P._cloud_format := Some "kerchunk";
     P._asset_stac := [("href", PStr remote_href);
                       ("mapper_kwargs", PDict [("fo", PStr "/elsewhere.json")])];
     P._meta := [("asset_id", PStr "a"); ("cloud_format", PStr "kerchunk")];
     P._stac_attrs := PNone; P._properties := PNone;
     P.visibility := "all" |}.

(** A host that answers the first GET with 503 and drops the connection on
    every later one, and a disk without files. *)
Definition env_dropped : Env :=
  {| requests_head := fun _ _ => Return 404;
     requests_get := fun n _ =>
       if Nat.eqb n 1 then Return {| status_code := 503; text := "" |}
       else Raise (OtherError "ConnectionError");
     os_path_isfile := fun _ _ => false;
     json_load_file := fun _ _ => Raise (FileNotFoundError []);
     json_loads := fun _ => Raise (ValueError [Lit "Expecting value"]);
     fsspec_get_mapper := fun _ _ _ => Return (Mapper 0);
     xr_open_zarr := fun _ _ _ => Return (Dataset 0);
     xr_open_dataset := fun _ _ _ _ => Return (Dataset 0);
     hash_id := sample_hash_id |}.

End Samples.

(** * Properties *)

(** ** Strings *)

Lemma prefix_app_l (a b s : string) :
  String.prefix (a ++ b) s = true -> String.prefix a s = true.
Proof.
  revert s. induction a as [|c a IH]; intros s Hp.
  - destruct s; reflexivity.
  - destruct s as [|d s]; simpl in *; try discriminate.
    destruct (Ascii.ascii_dec c d); [auto | discriminate].
Qed.

Lemma contains_app_l (a b s : string) :
  a <> EmptyString ->
  PyStr.contains (a ++ b) s = true -> PyStr.contains a s = true.
Proof.
  intros Ha. induction s as [|c s IH]; simpl.
  - destruct a; [congruence | discriminate].
  - intros Hc. apply orb_true_iff in Hc. apply orb_true_iff.
    destruct Hc as [Hc|Hc]; [left | right; auto].
    apply (prefix_app_l a b (String c s) Hc).
Qed.

(** A pattern that does not occur is not replaced. *)
Lemma replace_scan_absent (old new s : string) :
  PyStr.contains old s = false -> PyStr.replace_scan old new s O = s.
Proof.
  induction s as [|c s IH]; [reflexivity|].
  intros Hc. cbn [PyStr.contains] in Hc.
  apply orb_false_iff in Hc. destruct Hc as [Hp Hc].
  cbn [PyStr.replace_scan]. rewrite Hp. now rewrite IH.
Qed.

Lemma replace_absent (old new s : string) :
  old <> EmptyString ->
  PyStr.contains old s = false -> PyStr.replace old new s = s.
Proof.
  intros Ho Hc. destruct old; [congruence|].
  now apply replace_scan_absent.
Qed.

(** Replacing an occurrence by text that starts differently changes the
    string. *)
Lemma replace_scan_present (c d : ascii) (old new s : string) :
  c <> d ->
  PyStr.contains (String c old) s = true ->
  PyStr.replace_scan (String c old) (String d new) s O <> s.
Proof.
  intros Hcd. induction s as [|e s IH]; [discriminate|].
  intros Hc. cbn [PyStr.replace_scan].
  destruct (String.prefix (String c old) (String e s)) eqn:Hp.
  - simpl in Hp. destruct (Ascii.ascii_dec c e) as [->|]; [|discriminate].
    simpl. intros Heq. injection Heq as Heq _. congruence.
  - cbn [PyStr.contains] in Hc. rewrite Hp in Hc. simpl in Hc.
    intros Heq. injection Heq as Heq. now apply IH.
Qed.

(** ** Dictionaries *)

Class KeyLaws (K : Type) {HK : Key K} := {
  keqb_eq : forall a b : K, keqb a b = true <-> a = b
}.
Arguments KeyLaws K {HK}.

#[export] Instance KeyLaws_string : KeyLaws string.
Proof. constructor. exact String.eqb_eq. Qed.

#[export] Instance KeyLaws_opt_string : KeyLaws (option string).
Proof.
  constructor. intros [x|] [y|]; simpl; split; intro Hab;
    try discriminate; try reflexivity.
  - apply String.eqb_eq in Hab. now subst.
  - injection Hab as ->. apply String.eqb_refl.
Qed.

Section DictFacts.
Context {K V : Type} {HK : Key K} {HL : KeyLaws K}.
Implicit Types (d : dict K V) (k : K) (v : V).

Lemma keqb_refl k : keqb k k = true.
Proof. now apply keqb_eq. Qed.

Lemma keqb_neq k k' : k <> k' -> keqb k k' = false.
Proof.
  intros Hn. destruct (keqb k k') eqn:Hk; [|reflexivity].
  apply keqb_eq in Hk. contradiction.
Qed.

Lemma dict_get_set_same k v d : dict_get k (dict_set k v d) = Some v.
Proof.
  induction d as [|[k' v'] d IH]; simpl.
  - now rewrite keqb_refl.
  - destruct (keqb k k') eqn:Hk; simpl; rewrite Hk; auto.
Qed.

Lemma dict_get_set_other k k' v d :
  k <> k' -> dict_get k' (dict_set k v d) = dict_get k' d.
Proof.
  intros Hn. induction d as [|[k0 v0] d IH]; simpl.
  - rewrite keqb_neq; auto.
  - destruct (keqb k k0) eqn:Hk; simpl.
    + apply keqb_eq in Hk. subst k0.
      rewrite (keqb_neq (k:=k') (k':=k)); congruence.
    + now rewrite IH.
Qed.

Lemma dict_get_None_keys k d : dict_get k d = None <-> ~ In k (keys d).
Proof.
  induction d as [|[k' v'] d IH]; simpl.
  - tauto.
  - destruct (keqb k k') eqn:Hk.
    + apply keqb_eq in Hk. subst. split; [discriminate | tauto].
    + rewrite IH. split; [|tauto].
      intros Hn [Heq|Hin]; [|tauto]. subst. rewrite keqb_refl in Hk. discriminate.
Qed.

Lemma dict_get_In k v d : dict_get k d = Some v -> In (k, v) d.
Proof.
  induction d as [|[k' v'] d IH]; simpl; [discriminate|].
  destruct (keqb k k') eqn:Hk.
  - apply keqb_eq in Hk. intros [= ->]. subst. now left.
  - auto.
Qed.

Lemma keys_set k v d :
  keys (dict_set k v d) = if dict_mem k d then keys d else (keys d ++ [k])%list.
Proof.
  unfold dict_mem. induction d as [|[k' v'] d IH]; simpl; [reflexivity|].
  destruct (keqb k k') eqn:Hk; simpl; [reflexivity|].
  rewrite IH. now destruct (dict_get k d).
Qed.

Lemma dict_wf_set k v d : dict_wf d -> dict_wf (dict_set k v d).
Proof.
  unfold dict_wf. intros Hd. rewrite keys_set. unfold dict_mem.
  destruct (dict_get k d) eqn:Hg; [assumption|].
  apply dict_get_None_keys in Hg.
  apply NoDup_rev in Hd. rewrite <- (rev_involutive (keys d ++ [k])%list).
  apply NoDup_rev. rewrite rev_app_distr. simpl. constructor; [|assumption].
  now rewrite <- in_rev.
Qed.

Lemma dict_wf_tail kv d : dict_wf (kv :: d) -> dict_wf d.
Proof. unfold dict_wf. simpl. now inversion 1. Qed.

Lemma dict_wf_head_fresh k v d : dict_wf ((k, v) :: d) -> dict_get k d = None.
Proof.
  unfold dict_wf. simpl. inversion 1; subst. now apply dict_get_None_keys.
Qed.
End DictFacts.

(** ** The monad, unfolded *)

Ltac run :=
  cbv beta iota zeta delta
      [bind ret raise catch io get_self put_self lift_result warning
       call_head call_get call_isfile call_load_file call_get_mapper
       call_open_zarr call_open_dataset fst snd
       P._id P._order P._cloud_format P._asset_stac P._meta P._stac_attrs
       P._properties P.visibility P.set_visibility
       C._id C._local_only C.show_unreachable C._products C._meta].

Ltac run_m :=
  cbv beta iota zeta delta
      [bind ret raise catch io get_self put_self lift_result warning
       call_head call_get call_isfile call_load_file call_get_mapper
       call_open_zarr call_open_dataset fst snd].

Lemma clock_record_call (ev : event) (w : world) :
  clock (record_call ev w) = S (clock w).
Proof. reflexivity. Qed.

(** ** Construction of a product *)

Section Construction.
Variable E : Env.
Variables (asset_stac : pydict) (id cf : option string).
Variables (order stac_attrs properties : pyval).

Let init mode meta := P.__init__ E asset_stac id cf order mode meta stac_attrs properties.

Lemma init_mode_guard (mode : string) (meta : pyval) (w : world) :
  String.eqb mode "xarray" = false ->
  init mode meta w = (Raise (NotImplementedError P.mode_message), w).
Proof.
  intros Hm. unfold init, P.__init__. rewrite Hm. reflexivity.
Qed.

Lemma init_returns_inv (mode : string) (meta : pyval) (w w' : world) (p : P.product) :
  init mode meta w = (Return p, w') ->
  mode = "xarray" /\ exists m, meta = PDict m.
Proof.
  unfold init, P.__init__.
  destruct (String.eqb mode "xarray") eqn:Hm; simpl.
  - apply String.eqb_eq in Hm.
    destruct meta; run; simpl; try discriminate.
    intros _. split; [assumption | eauto].
  - discriminate.
Qed.

(** The run of the constructor on a string href that contains the scheme
    and whose probe is answered with a status other than 200. *)
Lemma init_failed_probe (m : pydict) (h : string) (s : Z) (w : world) :
  dict_get "href" asset_stac = Some (PStr h) ->
  PyStr.contains "https://" h = true ->
  requests_head E (clock w) (PStr h) = Return s ->
  s <> 200 ->
  let local_ref := PyStr.replace "https://dap.ceda.ac.uk" "" h in
  let present := os_path_isfile E (S (clock w)) local_ref in
  init "xarray" (PDict m) w =
    (Return {| P._id := id; P._order := order; P._cloud_format := cf;
               P._asset_stac := asset_stac;
               P._meta := dict_union m [("asset_id", of_id id); ("cloud_format", of_id cf)];
               P._stac_attrs := stac_attrs; P._properties := properties;
               P.visibility := if present then "local-only" else "unreachable" |},
     record_call (EvIsFile local_ref) (record_call (EvHead (PStr h)) w)).
Proof.
  intros Hh Hc Hs Hne local_ref present.
  assert (Hs' : (s =? 200) = false) by now apply Z.eqb_neq.
  unfold init, P.__init__, P._set_visibility, P.href, py_in, py_replace, py_or_dict.
  cbn [String.eqb Ascii.eqb Bool.eqb negb]. run.
  rewrite Hh. run. rewrite Hc. run. rewrite Hh. run. rewrite Hs. run.
  rewrite Hs'. cbn [negb]. run. rewrite Hh. run.
  fold local_ref. rewrite clock_record_call. fold present.
  destruct present; reflexivity.
Qed.
End Construction.

(** C1 (as amended).  A product built from a string href that contains
    [https://] and whose HEAD probe is answered with a status other than 200
    is first marked [local-only] and then put through the local check: its
    visibility after construction is [local-only] when the href with the
    prefix [https://dap.ceda.ac.uk] removed is an existing file, and
    [unreachable] when it is not.  With mode [xarray] and a mapping as meta the
    constructor does return. *)
Theorem visibility_after_failed_probe
    (E : Env) (asset_stac : pydict) (id cf : option string)
    (order stac_attrs properties meta : pyval) (mode h : string) (s : Z) (w : world) :
  dict_get "href" asset_stac = Some (PStr h) ->
  PyStr.contains "https://" h = true ->
  requests_head E (clock w) (PStr h) = Return s ->
  s <> 200 ->
  let present :=
    os_path_isfile E (S (clock w)) (PyStr.replace "https://dap.ceda.ac.uk" "" h) in
  (forall p w',
      P.__init__ E asset_stac id cf order mode meta stac_attrs properties w = (Return p, w') ->
      P.visibility p = if present then "local-only" else "unreachable") /\
  (mode = "xarray" -> (exists m, meta = PDict m) ->
   exists p w',
     P.__init__ E asset_stac id cf order mode meta stac_attrs properties w = (Return p, w')).
Proof.
  intros Hh Hc Hs Hne present. split.
  - intros p w' Hinit.
    destruct (init_returns_inv _ _ _ _ _ _ _ _ _ _ Hinit) as [-> [m ->]].
    rewrite (@init_failed_probe E asset_stac id cf order stac_attrs properties
               m h s w Hh Hc Hs Hne) in Hinit.
    injection Hinit as <- _. reflexivity.
  - intros -> [m ->].
    rewrite (@init_failed_probe E asset_stac id cf order stac_attrs properties
               m h s w Hh Hc Hs Hne).
    eauto.
Qed.

Lemma visibility_after_failed_probe_witness :
  (forall p w',
      P.__init__ Samples.env_local Samples.asset_remote (Some "a") (Some "kerchunk")
                 PNone "xarray" (PDict []) PNone PNone Samples.w0 = (Return p, w') ->
      P.visibility p = "local-only") /\
  (exists p w',
      P.__init__ Samples.env_local Samples.asset_remote (Some "a") (Some "kerchunk")
                 PNone "xarray" (PDict []) PNone PNone Samples.w0 = (Return p, w')).
Proof.
  destruct (@visibility_after_failed_probe Samples.env_local Samples.asset_remote
              (Some "a") (Some "kerchunk") PNone PNone PNone (PDict []) "xarray"
              Samples.remote_href 404 Samples.w0
              eq_refl eq_refl eq_refl ltac:(discriminate)) as [Hvis Hret].
  split; [exact Hvis | apply Hret; [reflexivity | now exists []]].
Defined.

(** C1, as first stated, fails: the probe is answered 404 and the local file
    is missing, and the constructed product is [unreachable], not
    [local-only]. *)
Lemma failed_probe_unreachable :
  PyStr.contains "https://" Samples.remote_href = true /\
  requests_head Samples.env_offline 0 (PStr Samples.remote_href) = Return 404 /\
  P.__init__ Samples.env_offline Samples.asset_remote (Some "a") (Some "kerchunk")
             PNone "xarray" (PDict []) PNone PNone Samples.w0
  = (Return (Samples.product_of (Some "a") (Some "kerchunk") "unreachable"),
     record_call (EvIsFile "/x/y.json")
       (record_call (EvHead (PStr Samples.remote_href)) Samples.w0)) /\
  P.visibility (Samples.product_of (Some "a") (Some "kerchunk") "unreachable")
  <> "local-only".
Proof.
  repeat split; try reflexivity. discriminate.
Qed.

(** C10 (as amended).  With the meta argument left at [None], the
    constructor in the supported mode [xarray] raises the [TypeError] of the
    metadata merge, with no external call made and so before any visibility is
    computed; in any other mode the mode guard raises [NotImplementedError]
    first.  Whenever the constructor returns, the mode is [xarray] and meta is
    a mapping. *)
Theorem init_without_meta
    (E : Env) (asset_stac : pydict) (id cf : option string)
    (order stac_attrs properties : pyval) (mode : string) (w : world) :
  (mode = "xarray" ->
   P.__init__ E asset_stac id cf order mode PNone stac_attrs properties w
   = (Raise TypeError, w)) /\
  (mode <> "xarray" ->
   P.__init__ E asset_stac id cf order mode PNone stac_attrs properties w
   = (Raise (NotImplementedError P.mode_message), w)) /\
  (forall meta p w',
      P.__init__ E asset_stac id cf order mode meta stac_attrs properties w = (Return p, w') ->
      mode = "xarray" /\ exists m, meta = PDict m).
Proof.
  split; [|split].
  - intros ->. reflexivity.
  - intros Hm. apply init_mode_guard. now apply String.eqb_neq.
  - intros meta p w'. apply init_returns_inv.
Qed.

Lemma init_without_meta_witness :
  P.__init__ Samples.env_local Samples.asset_remote (Some "a") (Some "kerchunk")
             PNone "xarray" PNone PNone PNone Samples.w0
  = (Raise TypeError, Samples.w0).
Proof.
  apply (proj1 (init_without_meta Samples.env_local Samples.asset_remote
                  (Some "a") (Some "kerchunk") PNone PNone PNone "xarray" Samples.w0)).
  reflexivity.
Defined.

(** C10, as first stated, fails: with meta omitted and a mode other than
    [xarray] the exception is the [NotImplementedError] of the mode guard, not
    a [TypeError]. *)
Lemma init_without_meta_other_mode :
  P.__init__ Samples.env_local Samples.asset_remote (Some "a") (Some "kerchunk")
             PNone "cf-python" PNone PNone PNone Samples.w0
  = (Raise (NotImplementedError P.mode_message), Samples.w0) /\
  fst (P.__init__ Samples.env_local Samples.asset_remote (Some "a") (Some "kerchunk")
                  PNone "cf-python" PNone PNone PNone Samples.w0)
  <> Raise TypeError.
Proof.
  split; [reflexivity | discriminate].
Qed.

(** ** Opening a product *)

Section Opening.
Variable E : Env.

Lemma open_format_unset (p : P.product) (lo : bool) (kw : pydict) (w : world) :
  P.format_unset (P._cloud_format p) = true ->
  P.open_dataset E lo kw (p, w) = (Raise (ValueError P.no_format_message), (p, w)).
Proof.
  intros Hf. destruct p as [i o cf a m sa pr vis]. cbn in Hf.
  unfold P.open_dataset. run. rewrite Hf. reflexivity.
Qed.

Lemma open_local_only_guard (p : P.product) (kw : pydict) (w : world) :
  P.format_unset (P._cloud_format p) = false ->
  P.visibility p = "local-only" ->
  P.open_dataset E false kw (p, w) = (Raise (ValueError P.local_only_message), (p, w)).
Proof.
  intros Hf Hv. destruct p as [i o cf a m sa pr vis]. cbn in Hf, Hv. subst vis.
  unfold P.open_dataset. run. rewrite Hf. reflexivity.
Qed.

Lemma open_unknown_format (p : P.product) (lo : bool) (kw : pydict) (w : world) :
  P.format_unset (P._cloud_format p) = false ->
  String.eqb (P.visibility p) "local-only" && negb lo = false ->
  P.format_is (P._cloud_format p) "kerchunk" = false ->
  P.format_is (P._cloud_format p) "CFA" = false ->
  P.open_dataset E lo kw (p, w) = (Raise (ValueError P.unknown_format_message), (p, w)).
Proof.
  intros Hf Hv Hk Hc. destruct p as [i o cf a m sa pr vis].
  cbn [P._cloud_format P.visibility] in Hf, Hv, Hk, Hc.
  unfold P.open_dataset. run. rewrite Hf, Hv, Hk, Hc. reflexivity.
Qed.
End Opening.

(** C8 (as amended).  For a product whose cloud format is set and whose
    visibility is [local-only], [open_dataset] with [local_only=False] raises
    the error that tells the caller to use [local_only=True]; when the format
    is unset the format guard, which comes first, raises its own error.  In
    both cases the product and the world are left as they were: no external
    call, and so no dataset open, is made. *)
Theorem open_refused_when_local_only
    (E : Env) (p : P.product) (kwargs : pydict) (w : world) :
  P.visibility p = "local-only" ->
  P.open_dataset E false kwargs (p, w)
  = (Raise (ValueError (if P.format_unset (P._cloud_format p)
                        then P.no_format_message
                        else P.local_only_message)),
     (p, w))
  /\ names "please use `local_only=True`" P.local_only_message = true.
Proof.
  intros Hv. split; [|reflexivity].
  destruct (P.format_unset (P._cloud_format p)) eqn:Hf.
  - now apply open_format_unset.
  - now apply open_local_only_guard.
Qed.

Lemma open_refused_when_local_only_witness :
  P.open_dataset Samples.env_local false []
    (Samples.product_of (Some "a") (Some "kerchunk") "local-only", Samples.w0)
  = (Raise (ValueError P.local_only_message),
     (Samples.product_of (Some "a") (Some "kerchunk") "local-only", Samples.w0)).
Proof.
  apply (proj1 (@open_refused_when_local_only Samples.env_local
                  (Samples.product_of (Some "a") (Some "kerchunk") "local-only")
                  [] Samples.w0 eq_refl)).
Defined.

(** C8, as first stated, fails: a [local-only] product built without a cloud
    format answers with the format error, which does not mention
    [local_only]. *)
Lemma open_local_only_without_format :
  P.visibility (Samples.product_of (Some "a") None "local-only") = "local-only" /\
  P.open_dataset Samples.env_local false []
    (Samples.product_of (Some "a") None "local-only", Samples.w0)
  = (Raise (ValueError P.no_format_message),
     (Samples.product_of (Some "a") None "local-only", Samples.w0)) /\
  P.no_format_message <> P.local_only_message /\
  names "local_only" P.no_format_message = false.
Proof.
  repeat split; try reflexivity. discriminate.
Qed.

(** C6 (as amended).  For every cloud format other than [kerchunk] and
    [CFA], [open_dataset] raises a [ValueError] and leaves the product and the
    world untouched.  The message is the one naming both supported formats
    when the format is non-empty and the local-only guard lets the call
    through; an unset or empty format gets the message of the format guard,
    and a [local-only] product opened without [local_only] gets the message
    of the local-only guard. *)
Theorem open_unsupported_format
    (E : Env) (p : P.product) (local_only : bool) (kwargs : pydict) (w : world) :
  P.format_is (P._cloud_format p) "kerchunk" = false ->
  P.format_is (P._cloud_format p) "CFA" = false ->
  P.open_dataset E local_only kwargs (p, w)
  = (Raise (ValueError
              (if P.format_unset (P._cloud_format p) then P.no_format_message
               else if String.eqb (P.visibility p) "local-only" && negb local_only
                    then P.local_only_message
                    else P.unknown_format_message)),
     (p, w))
  /\ names "kerchunk" P.unknown_format_message = true
  /\ names "CFA" P.unknown_format_message = true.
Proof.
  intros Hk Hc. split; [|split; reflexivity].
  destruct (P.format_unset (P._cloud_format p)) eqn:Hf.
  - now apply open_format_unset.
  - destruct (String.eqb (P.visibility p) "local-only" && negb local_only) eqn:Hv.
    + apply andb_true_iff in Hv. destruct Hv as [Hv Hl].
      apply String.eqb_eq in Hv. destruct local_only; [discriminate|].
      now apply open_local_only_guard.
    + now apply open_unknown_format.
Qed.

Lemma open_unsupported_format_witness :
  P.open_dataset Samples.env_local false []
    (Samples.product_of (Some "a") (Some "zarr") "all", Samples.w0)
  = (Raise (ValueError P.unknown_format_message),
     (Samples.product_of (Some "a") (Some "zarr") "all", Samples.w0)).
Proof.
  apply (proj1 (@open_unsupported_format Samples.env_local
                  (Samples.product_of (Some "a") (Some "zarr") "all")
                  false [] Samples.w0 eq_refl eq_refl)).
Defined.

(** C6, as first stated, fails: with the format unset the error message names
    neither supported format; and with an unsupported format on a
    [local-only] product the message is the one of the local-only guard. *)
Lemma open_unset_format_names_nothing :
  (P.open_dataset Samples.env_local false []
     (Samples.product_of (Some "a") None "all", Samples.w0)
   = (Raise (ValueError P.no_format_message),
      (Samples.product_of (Some "a") None "all", Samples.w0)) /\
   names "kerchunk" P.no_format_message = false /\
   names "CFA" P.no_format_message = false) /\
  (P.open_dataset Samples.env_local false []
     (Samples.product_of (Some "a") (Some "zarr") "local-only", Samples.w0)
   = (Raise (ValueError P.local_only_message),
      (Samples.product_of (Some "a") (Some "zarr") "local-only", Samples.w0)) /\
   names "kerchunk" P.local_only_message = false /\
   names "CFA" P.local_only_message = false).
Proof.
  repeat split; reflexivity.
Qed.

(** ** Frame: what opening leaves alone *)

Section Frame.
Variable E : Env.

Lemma keeps_ret {A} (a : A) : keeps_self (ret a).
Proof. intros p w. reflexivity. Qed.

Lemma keeps_raise {A} (e : exn) : keeps_self (raise (A:=A) e).
Proof. intros p w. reflexivity. Qed.

Lemma keeps_get_self : keeps_self get_self.
Proof. intros p w. reflexivity. Qed.

Lemma keeps_lift_result {A} (r : result A) : keeps_self (lift_result r).
Proof. intros p w. reflexivity. Qed.

Lemma keeps_io {A} (m : M world A) : keeps_self (io m).
Proof. intros p w. unfold io. simpl. now destruct (m w). Qed.

Lemma keeps_bind {A B} (m : P.method A) (k : A -> P.method B) :
  keeps_self m -> (forall a, keeps_self (k a)) -> keeps_self (bind m k).
Proof.
  intros Hm Hk p w. unfold bind. specialize (Hm p w).
  destruct (m (p, w)) as [[e|a] [p' w']]; simpl in Hm; subst p'.
  - reflexivity.
  - apply Hk.
Qed.

Lemma keeps_catch {A} (m : P.method A) (h : exn -> P.method A) :
  keeps_self m -> (forall e, keeps_self (h e)) -> keeps_self (catch m h).
Proof.
  intros Hm Hh p w. unfold catch. specialize (Hm p w).
  destruct (m (p, w)) as [[e|a] [p' w']]; simpl in Hm; subst p'.
  - apply Hh.
  - reflexivity.
Qed.

Lemma keeps_if {A} (b : bool) (m1 m2 : P.method A) :
  keeps_self m1 -> keeps_self m2 -> keeps_self (if b then m1 else m2).
Proof. now destruct b. Qed.

Create HintDb frame.
#[local] Hint Resolve keeps_ret keeps_raise keeps_get_self keeps_lift_result
  keeps_io keeps_bind keeps_catch keeps_if : frame.

Ltac frame :=
  repeat (first
    [ assumption
    | progress cbv zeta
    | apply keeps_bind; [|intro]
    | apply keeps_catch; [|intro]
    | apply keeps_if
    | solve [auto with frame]
    | match goal with
      | |- keeps_self (match ?x with _ => _ end) => destruct x
      end ]).

Lemma keeps_open_kerchunk (lo : bool) (kw : pydict) :
  keeps_self (P._open_kerchunk E lo kw).
Proof. unfold P._open_kerchunk. frame. Qed.

Lemma keeps_open_cfa (kw : pydict) : keeps_self (P._open_cfa E kw).
Proof. unfold P._open_cfa. frame. Qed.

Lemma keeps_open_dataset (lo : bool) (kw : pydict) :
  keeps_self (P.open_dataset E lo kw).
Proof.
  pose proof (keeps_open_kerchunk lo kw). pose proof (keeps_open_cfa kw).
  unfold P.open_dataset. frame.
Qed.
End Frame.

(** C9.  Whatever the sequence of [open_dataset] calls made on a product,
    with any arguments and whether they return or raise, the product after
    the calls is the product before them, field by field; in particular its
    visibility is still the one the constructor stored. *)
Theorem open_many_keeps_product
    (E : Env) (args : list (bool * pydict)) (p : P.product) (w : world) :
  fst (snd (open_many E args (p, w))) = p /\
  P.visibility (fst (snd (open_many E args (p, w)))) = P.visibility p.
Proof.
  assert (Hp : fst (snd (open_many E args (p, w))) = p).
  { revert p w. induction args as [|[lo kw] rest IH]; intros p w; [reflexivity|].
    cbn [open_many].
    pose proof (keeps_open_dataset E lo kw p w) as Hk.
    destruct (P.open_dataset E lo kw (p, w)) as [r [p' w']]. simpl in Hk. subst p'.
    specialize (IH p w').
    destruct (open_many E rest (p, w')) as [rs st'']. exact IH. }
  split; [exact Hp | now rewrite Hp].
Qed.

(** ** Looking a product up in a cluster *)

Section Lookup.
Variable E : Env.
Variables (c : C.cluster) (local_only : bool) (kwargs : pydict) (w : world).

(** What [open_dataset] does once the id is known to be bound. *)
Lemma open_dataset_found (i : C.index) (k : option string) (p : P.product) :
  match i with
  | C.Pos z => list_index (keys (C._products c)) z
  | C.Id k' => Return k'
  end = Return k ->
  dict_get k (C._products c) = Some p ->
  fst (C.open_dataset E i "xarray" local_only kwargs (c, w))
  = match fst (P.open_dataset E (local_only || C._local_only c) kwargs (p, w)) with
    | Raise e => Raise e
    | Return d => Return (Some d)
    end.
Proof.
  intros Hi Hk. unfold C.open_dataset. cbn [String.eqb Ascii.eqb Bool.eqb negb].
  run_m. rewrite Hi. run_m. rewrite Hk.
  destruct (P.open_dataset E (local_only || C._local_only c) kwargs (p, w))
    as [r [p' w']].
  reflexivity.
Qed.

Lemma open_dataset_bad_position (z : Z) (e : exn) :
  list_index (keys (C._products c)) z = Raise e ->
  C.open_dataset E (C.Pos z) "xarray" local_only kwargs (c, w) = (Raise e, (c, w)).
Proof.
  intros Hi. unfold C.open_dataset. cbn [String.eqb Ascii.eqb Bool.eqb negb].
  run_m. rewrite Hi. reflexivity.
Qed.
End Lookup.

(** C3.  For an id that is not a key of the cluster's product mapping,
    [cluster[id]] raises [IndexError], while [open_dataset(id)] in mode
    [xarray] logs one warning, makes no external call, leaves the cluster as
    it was and returns [None].  Both resolve their argument the same way: a
    position that is out of range makes both raise the same error, and
    whenever indexing yields a product, [open_dataset] hands the call to that
    very product, with the per-call [local_only] or'ed with the cluster's
    own. *)
Theorem missing_id_index_raises_open_warns
    (E : Env) (c : C.cluster) (k : option string)
    (local_only : bool) (kwargs : pydict) (w : world) :
  dict_mem k (C._products c) = false ->
  C.__getitem__ c (C.Id k) = Raise (IndexError (C.not_found_products (fmt_id k))) /\
  C.open_dataset E (C.Id k) "xarray" local_only kwargs (c, w)
  = (Return None, (c, record_warning (C.not_found_datasets (fmt_id k)) w)) /\
  (forall z e,
      list_index (keys (C._products c)) z = Raise e ->
      C.__getitem__ c (C.Pos z) = Raise e /\
      C.open_dataset E (C.Pos z) "xarray" local_only kwargs (c, w) = (Raise e, (c, w))) /\
  (forall i p,
      C.__getitem__ c i = Return p ->
      fst (C.open_dataset E i "xarray" local_only kwargs (c, w))
      = match fst (P.open_dataset E (local_only || C._local_only c) kwargs (p, w)) with
        | Raise e => Raise e
        | Return d => Return (Some d)
        end).
Proof.
  intros Hk. unfold dict_mem in Hk.
  destruct (dict_get k (C._products c)) eqn:Hg; [discriminate|].
  split; [|split; [|split]].
  - unfold C.__getitem__. now rewrite Hg.
  - unfold C.open_dataset. cbn [String.eqb Ascii.eqb Bool.eqb negb].
    run_m. rewrite Hg. destruct c; reflexivity.
  - intros z e Hz. split.
    + unfold C.__getitem__. now rewrite Hz.
    + now apply open_dataset_bad_position.
  - intros i p Hi. unfold C.__getitem__ in Hi.
    destruct (match i with
              | C.Pos z => list_index (keys (C._products c)) z
              | C.Id k' => Return k'
              end) as [e|k'] eqn:Hr; [discriminate|].
    destruct (dict_get k' (C._products c)) as [p'|] eqn:Hg'; [|discriminate].
    injection Hi as ->.
    now apply open_dataset_found with (k := k').
Qed.

Lemma missing_id_index_raises_open_warns_witness :
  C.__getitem__ Samples.cluster_ab (C.Id (Some "missing-id"))
  = Raise (IndexError (C.not_found_products (Fmt (PStr "missing-id")))) /\
  C.open_dataset Samples.env_local (C.Id (Some "missing-id")) "xarray" false []
                 (Samples.cluster_ab, Samples.w0)
  = (Return None,
     (Samples.cluster_ab,
      {| calls := []; log := [C.not_found_datasets (Fmt (PStr "missing-id"))] |})).
Proof.
  destruct (@missing_id_index_raises_open_warns Samples.env_local Samples.cluster_ab
              (Some "missing-id") false [] Samples.w0 eq_refl) as [Hget [Hopen _]].
  split; [exact Hget | exact Hopen].
Defined.

(** ** Merging keyword options *)

Section Union.
Context {K V : Type} {HK : Key K} {HL : KeyLaws K}.

(** In [a | b] a key bound in [b] has the value [b] gives it, and any other
    key keeps the value it has in [a]. *)
Lemma dict_get_union (k : K) (a b : dict K V) :
  dict_wf b ->
  dict_get k (dict_union a b)
  = match dict_get k b with
    | Some v => Some v
    | None => dict_get k a
    end.
Proof.
  unfold dict_union. revert a.
  induction b as [|[k0 v0] b IH]; intros a Hwf; [reflexivity|].
  cbn [fold_left fst snd dict_get].
  rewrite IH by (eapply dict_wf_tail; eassumption).
  destruct (keqb k k0) eqn:Hk.
  - apply keqb_eq in Hk. subst k0.
    rewrite (dict_wf_head_fresh Hwf). apply dict_get_set_same.
  - destruct (dict_get k b); [reflexivity|].
    apply dict_get_set_other. intros ->. rewrite keqb_refl in Hk. discriminate.
Qed.
End Union.

(** C7.  When a kerchunk product is opened and the steps before
    [xr.open_zarr] go through (the optional localisation of the href, the
    mapper options, [fsspec.get_mapper]), the keyword options handed to
    [xr.open_zarr] bind each key as the caller's options do; failing that, as
    the asset's [open_zarr_kwargs] do; failing that, [consolidated] is [False]
    and nothing else is bound. *)
Theorem kerchunk_open_options
    (E : Env) (p : P.product) (local_only : bool) (kwargs azk mkw : pydict)
    (href fo : pyval) (w w1 : world) (m : mapper) :
  dict_get "href" (P._asset_stac p) = Some href ->
  or_empty (dict_get "open_zarr_kwargs" (P._asset_stac p)) = PDict azk ->
  dict_wf azk ->
  dict_wf kwargs ->
  (if local_only then _fetch_kerchunk_make_local E href else ret href) w = (Return fo, w1) ->
  or_empty (dict_get "mapper_kwargs" (P._asset_stac p)) = PDict mkw ->
  dict_mem "fo" mkw = false ->
  fsspec_get_mapper E (clock w1) fo mkw = Return m ->
  exists zarr_kwargs,
    P._open_kerchunk E local_only kwargs (p, w)
    = (xr_open_zarr E (S (clock w1)) m zarr_kwargs,
       (p, record_call (EvOpenZarr m zarr_kwargs) (record_call (EvGetMapper fo mkw) w1)))
    /\ _zarr_kwargs_default (PDict azk) = Return (dict_union [("consolidated", PBool false)] azk)
    /\ forall k,
        dict_get k zarr_kwargs
        = match dict_get k kwargs with
          | Some v => Some v
          | None =>
              match dict_get k azk with
              | Some v => Some v
              | None => if String.eqb k "consolidated" then Some (PBool false) else None
              end
          end.
Proof.
  intros Hh Hz Hwa Hwk Hfo Hm Hnofo Hmap.
  exists (dict_union (dict_union [("consolidated", PBool false)] azk) kwargs).
  split; [|split].
  - unfold P._open_kerchunk. run_m. rewrite Hh, Hz, Hm.
    destruct local_only.
    + run_m. rewrite Hfo. cbn [py_splat]. rewrite Hnofo. rewrite Hmap. reflexivity.
    + cbv [ret] in Hfo. injection Hfo as <- <-.
      cbn [py_splat]. rewrite Hnofo. rewrite Hmap. reflexivity.
  - reflexivity.
  - intros k. rewrite (dict_get_union k _ Hwk).
    destruct (dict_get k kwargs); [reflexivity|].
    rewrite (dict_get_union k _ Hwa).
    destruct (dict_get k azk); reflexivity.
Qed.

Lemma kerchunk_open_options_witness :
  exists zarr_kwargs,
    P._open_kerchunk Samples.env_local false [("decode_times", PBool true)]
                     (Samples.product_with_options, Samples.w0)
    = (Return (Dataset 0),
       (Samples.product_with_options,
        {| calls := [EvOpenZarr (Mapper 0) zarr_kwargs;
                     EvGetMapper (PStr Samples.remote_href) []];
           log := [] |}))
    /\ dict_get "consolidated" zarr_kwargs = Some (PBool true)
    /\ dict_get "decode_times" zarr_kwargs = Some (PBool true)
    /\ dict_get "chunks" zarr_kwargs = None.
Proof.
  destruct (@kerchunk_open_options Samples.env_local Samples.product_with_options
              false [("decode_times", PBool true)]
              [("consolidated", PBool true); ("decode_times", PBool false)] []
              (PStr Samples.remote_href) (PStr Samples.remote_href)
              Samples.w0 Samples.w0 (Mapper 0)
              eq_refl eq_refl
              ltac:(repeat constructor; simpl; intuition discriminate)
              ltac:(repeat constructor; simpl; intuition discriminate)
              eq_refl eq_refl eq_refl eq_refl)
    as [zk [Hopen [_ Hget]]].
  exists zk. split; [exact Hopen|].
  split; [exact (Hget "consolidated")|].
  split; [exact (Hget "decode_times") | exact (Hget "chunks")].
Defined.

(** ** Fetching a reference document *)

Section Retry.
Variable E : Env.
Variable h : string.

Lemma fetch_loop_exit (b : nat) (st : fetch_state) (w : world) :
  (attempts st <? 3) && negb (success st) = false ->
  fetch_loop E b h st w = (Return st, w).
Proof. intros Hg. destruct b; simpl; now rewrite Hg. Qed.

Lemma fetch_loop_step (b : nat) (st : fetch_state) (w : world) :
  (attempts st <? 3) && negb (success st) = true ->
  fetch_loop E (S b) h st w
  = match requests_get E (clock w) h with
    | Raise e => (Raise e, record_call (EvGet h) w)
    | Return r =>
        fetch_loop E b h
          {| attempts := attempts st + 1;
             success := if status_code r =? 200 then true else success st;
             resp := Some r |}
          (record_call (EvGet h) w)
    end.
Proof.
  intros Hg. cbn [fetch_loop]. rewrite Hg. run_m.
  now destruct (requests_get E (clock w) h).
Qed.

Lemma repeat_shift {A} (x : A) (n : nat) (l : list A) :
  (repeat x n ++ x :: l = x :: repeat x n ++ l)%list.
Proof. induction n as [|n IH]; simpl; [reflexivity | now rewrite IH]. Qed.

(** The loop issues no more GETs than the guard [attempts < 3] leaves room
    for, whatever the budget, and touches nothing else. *)
Lemma fetch_loop_bound (b : nat) (st : fetch_state) (w : world) :
  exists n,
    Z.of_nat n <= Z.max 0 (3 - attempts st) /\
    calls (snd (fetch_loop E b h st w)) = (repeat (EvGet h) n ++ calls w)%list /\
    log (snd (fetch_loop E b h st w)) = log w.
Proof.
  revert st w. induction b as [|b IH]; intros st w.
  - exists O. split; [lia|]. simpl.
    destruct ((attempts st <? 3) && negb (success st)); now split.
  - destruct ((attempts st <? 3) && negb (success st)) eqn:Hg.
    + rewrite (fetch_loop_step b st w Hg).
      apply andb_true_iff in Hg. destruct Hg as [Hlt _]. apply Z.ltb_lt in Hlt.
      destruct (requests_get E (clock w) h) as [e|r].
      * exists 1%nat. split; [lia | now split].
      * destruct (IH {| attempts := attempts st + 1;
                        success := if status_code r =? 200 then true else success st;
                        resp := Some r |}
                     (record_call (EvGet h) w)) as [n [Hn [Hc Hl]]].
        cbn [attempts] in Hn.
        exists (S n). split; [lia|]. split.
        -- rewrite Hc. cbn [record_call calls]. rewrite repeat_shift. reflexivity.
        -- rewrite Hl. reflexivity.
    + rewrite (fetch_loop_exit (S b) st w Hg).
      exists O. split; [lia | now split].
Qed.

(** A budget that covers the room left by the guard is as good as any
    other: the budget never decides the outcome. *)
Lemma fetch_loop_budget (b b' : nat) (st : fetch_state) (w : world) :
  3 - attempts st <= Z.of_nat b ->
  3 - attempts st <= Z.of_nat b' ->
  fetch_loop E b h st w = fetch_loop E b' h st w.
Proof.
  revert b' st w. induction b as [|b IH]; intros b' st w Hb Hb'.
  - assert (Hg : (attempts st <? 3) && negb (success st) = false).
    { apply andb_false_iff. left. apply Z.ltb_ge. lia. }
    now rewrite !fetch_loop_exit.
  - destruct ((attempts st <? 3) && negb (success st)) eqn:Hg.
    + destruct b' as [|b'].
      * apply andb_true_iff in Hg. destruct Hg as [Hlt _]. apply Z.ltb_lt in Hlt. lia.
      * rewrite !fetch_loop_step by assumption.
        destruct (requests_get E (clock w) h) as [e|r]; [reflexivity|].
        apply IH; cbn [attempts]; lia.
    + now rewrite !fetch_loop_exit.
Qed.
Lemma after_gets_record (n : nat) (w : world) :
  after_gets h n (record_call (EvGet h) w) = after_gets h (S n) w.
Proof.
  unfold after_gets. cbn [record_call calls log repeat].
  now rewrite repeat_shift.
Qed.

Lemma clock_after_gets (n : nat) (w : world) :
  clock (after_gets h n w) = (n + clock w)%nat.
Proof.
  unfold clock, after_gets. cbn [calls].
  now rewrite length_app, repeat_length.
Qed.

(** [j] answers other than 200 in a row take the loop [j] rounds further,
    with [success] still false. *)
Lemma fetch_loop_failures (j b : nat) (st : fetch_state) (w : world) :
  success st = false ->
  attempts st + Z.of_nat j <= 3 ->
  (j <= b)%nat ->
  (forall i, (i < j)%nat ->
     exists r, requests_get E (clock w + i) h = Return r /\ status_code r <> 200) ->
  exists st',
    fetch_loop E b h st w = fetch_loop E (b - j) h st' (after_gets h j w) /\
    attempts st' = attempts st + Z.of_nat j /\
    success st' = false.
Proof.
  revert b st w. induction j as [|j IH]; intros b st w Hs Ha Hb Hget.
  - exists st. rewrite Nat.sub_0_r. destruct w. split; [reflexivity | split; [lia | assumption]].
  - destruct b as [|b]; [lia|].
    assert (Hg : (attempts st <? 3) && negb (success st) = true).
    { rewrite Hs. apply andb_true_iff. split; [apply Z.ltb_lt; lia | reflexivity]. }
    rewrite (fetch_loop_step b st w Hg).
    destruct (Hget O ltac:(lia)) as [r [Hr Hne]]. rewrite Nat.add_0_r in Hr.
    rewrite Hr. apply Z.eqb_neq in Hne. rewrite Hne, Hs.
    destruct (IH b {| attempts := attempts st + 1; success := false; resp := Some r |}
                 (record_call (EvGet h) w)) as [st' [Hloop [Hatt Hsucc]]].
    + reflexivity.
    + cbn [attempts]. lia.
    + lia.
    + intros i Hi. rewrite clock_record_call.
      replace (S (clock w) + i)%nat with (clock w + S i)%nat by lia.
      apply Hget. lia.
    + exists st'. rewrite Hloop, after_gets_record. cbn [attempts] in Hatt.
      split; [reflexivity | split; [lia | assumption]].
Qed.

(** Three failures: the loop ends with [attempts = 3] and no success. *)
Lemma fetch_loop_all_fail (w : world) :
  (forall i, (i < 3)%nat ->
     exists r, requests_get E (clock w + i) h = Return r /\ status_code r <> 200) ->
  exists st,
    fetch_loop E 3 h {| attempts := 0; success := false; resp := None |} w
    = (Return st, after_gets h 3 w) /\
    attempts st = 3 /\ success st = false.
Proof.
  intros Hget.
  destruct (@fetch_loop_failures 3 3 {| attempts := 0; success := false; resp := None |} w
              eq_refl ltac:(cbn; lia) ltac:(lia) Hget) as [st [Hloop [Hatt Hsucc]]].
  exists st. rewrite Hloop. cbn [attempts] in Hatt. cbn [Z.of_nat] in Hatt.
  split; [|split; [lia | assumption]].
  apply fetch_loop_exit. apply andb_false_iff. left. apply Z.ltb_ge. lia.
Qed.

(** A 200 on attempt [j + 1], after [j] failures, ends the loop there. *)
Lemma fetch_loop_success (j : nat) (r : response) (w : world) :
  (j < 3)%nat ->
  (forall i, (i < j)%nat ->
     exists r', requests_get E (clock w + i) h = Return r' /\ status_code r' <> 200) ->
  requests_get E (clock w + j) h = Return r ->
  status_code r = 200 ->
  fetch_loop E 3 h {| attempts := 0; success := false; resp := None |} w
  = (Return {| attempts := Z.of_nat (S j); success := true; resp := Some r |},
     after_gets h (S j) w).
Proof.
  intros Hj Hfail Hr H200.
  destruct (@fetch_loop_failures j 3 {| attempts := 0; success := false; resp := None |} w
              eq_refl ltac:(cbn [attempts]; lia) ltac:(lia) Hfail)
    as [st [Hloop [Hatt Hsucc]]].
  rewrite Hloop. cbn [attempts] in Hatt.
  destruct (3 - j)%nat as [|b] eqn:Hb; [lia|].
  rewrite fetch_loop_step
    by (rewrite Hsucc; apply andb_true_iff; split; [apply Z.ltb_lt; lia | reflexivity]).
  rewrite clock_after_gets, Nat.add_comm, Hr, H200. cbn [Z.eqb Pos.eqb].
  rewrite fetch_loop_exit by (cbn [success negb]; apply andb_false_r).
  change (record_call (EvGet h) (after_gets h j w)) with (after_gets h (S j) w).
  repeat f_equal. lia.
Qed.
End Retry.

(** C4.  When the localised path is not a file, [_fetch_kerchunk_make_local]
    issues at most three GET requests and nothing else.  If the three
    requests are all answered with a status other than 200, it raises the
    download error after exactly three GETs.  If request [j + 1] (one of the
    first three) is the first to be answered 200, exactly [j + 1] GETs are
    made and the outcome is that of parsing the body of that response as JSON
    and running the rewriting step on the parsed document. *)
Theorem fetch_retries (E : Env) (h : string) (w : world) :
  let href_local := PyStr.replace "https://dap.ceda.ac.uk" "" h in
  let w1 := record_call (EvIsFile href_local) w in
  os_path_isfile E (clock w) href_local = false ->
  (exists n, (n <= 3)%nat /\
             snd (_fetch_kerchunk_make_local E (PStr h) w) = after_gets h n w1) /\
  ((forall i, (i < 3)%nat ->
      exists r, requests_get E (S (clock w) + i) h = Return r /\ status_code r <> 200) ->
   _fetch_kerchunk_make_local E (PStr h) w
   = (Raise (ValueError (download_failed h)), after_gets h 3 w1)) /\
  (forall j r,
      (j < 3)%nat ->
      (forall i, (i < j)%nat ->
         exists r', requests_get E (S (clock w) + i) h = Return r' /\ status_code r' <> 200) ->
      requests_get E (S (clock w) + j) h = Return r ->
      status_code r = 200 ->
      _fetch_kerchunk_make_local E (PStr h) w
      = (match json_loads E (text r) with
         | Raise e => Raise e
         | Return doc => rewrite_refs doc
         end,
         after_gets h (S j) w1)).
Proof.
  intros href_local w1 Hfile.
  assert (Hunfold :
    _fetch_kerchunk_make_local E (PStr h) w
    = match fetch_loop E 3 h {| attempts := 0; success := false; resp := None |} w1 with
      | (Raise e, w2) => (Raise e, w2)
      | (Return st, w2) =>
          if (3 <=? attempts st) && negb (success st)
          then (Raise (ValueError (download_failed h)), w2)
          else match resp st with
               | Some r =>
                   (match json_loads E (text r) with
                    | Raise e => Raise e
                    | Return doc => rewrite_refs doc
                    end, w2)
               | None => (Raise NameError, w2)
               end
      end).
  { unfold _fetch_kerchunk_make_local. run_m. fold href_local. rewrite Hfile.
    cbn [negb]. fold w1.
    destruct (fetch_loop E 3 h {| attempts := 0; success := false; resp := None |} w1)
      as [[e|st] w2]; [reflexivity|].
    destruct ((3 <=? attempts st) && negb (success st)); [reflexivity|].
    destruct (resp st) as [r|]; [|reflexivity].
    now destruct (json_loads E (text r)). }
  split; [|split].
  - destruct (fetch_loop_bound E h 3 {| attempts := 0; success := false; resp := None |} w1)
      as [n [Hn [Hc Hl]]].
    cbn [attempts] in Hn. exists n. split; [lia|].
    rewrite Hunfold.
    destruct (fetch_loop E 3 h {| attempts := 0; success := false; resp := None |} w1)
      as [[e|st] w2]; cbn [snd] in Hc, Hl.
    + destruct w2. cbn in Hc, Hl. subst. reflexivity.
    + assert (Hw : w2 = after_gets h n w1).
      { destruct w2. cbn in Hc, Hl. subst. reflexivity. }
      destruct ((3 <=? attempts st) && negb (success st)); [exact Hw|].
      destruct (resp st); exact Hw.
  - intros Hfail. rewrite Hunfold.
    destruct (fetch_loop_all_fail E h w1 Hfail) as [st [Hloop [Hatt Hsucc]]].
    rewrite Hloop, Hatt, Hsucc. reflexivity.
  - intros j r Hj Hfail Hr H200. rewrite Hunfold.
    rewrite (@fetch_loop_success E h j r w1 Hj Hfail Hr H200).
    cbn [attempts success resp negb]. now rewrite andb_false_r.
Qed.

Lemma fetch_retries_witness :
  os_path_isfile Samples.env_flaky 0 "/x/y.json" = false /\
  _fetch_kerchunk_make_local Samples.env_flaky (PStr Samples.remote_href) Samples.w0
  = (Return (PDict [("refs", PDict [("a", PList [PStr "/x/y"; PInt 10; PInt 20]);
                                    ("b", PStr "scalar")])]),
     {| calls := [EvGet Samples.remote_href; EvGet Samples.remote_href;
                  EvIsFile "/x/y.json"];
        log := [] |}).
Proof.
  split; [reflexivity|].
  destruct (@fetch_retries Samples.env_flaky Samples.remote_href Samples.w0 eq_refl)
    as [_ [_ Hsucc]].
  apply (Hsucc 1%nat {| status_code := 200; text := "doc" |}).
  - lia.
  - intros i Hi. assert (i = O) as -> by lia.
    exists {| status_code := 503; text := "" |}. split; [reflexivity | discriminate].
  - reflexivity.
  - reflexivity.
Defined.

(** ** Rewriting a reference document *)

Lemma dict_set_same_value {K V : Type} {HK : Key K} {HL : KeyLaws K}
    (k : K) (v : V) (d : dict K V) :
  dict_get k d = Some v -> dict_set k v d = d.
Proof.
  induction d as [|[k' v'] d IH]; simpl; [discriminate|].
  destruct (keqb k k') eqn:Hk.
  - now intros [= ->].
  - intros Hg. now rewrite IH.
Qed.

Lemma localized_cases (v : pyval) :
  (exists u b c, v = PList [PStr u; b; c]) \/
  (localized v = v /\ forall u b c, v <> PList [PStr u; b; c]).
Proof.
  destruct v as [| | | |l|]; try (right; split; [reflexivity | intros; discriminate]).
  destruct l as [|a l]; [right; split; [reflexivity | intros; discriminate]|].
  destruct a; destruct l as [|x1 [|x2 [|x3 rest]]];
    try (right; split; [reflexivity | intros; discriminate]).
  left. eauto.
Qed.

(** One round of the loop on a well-formed entry writes the localised value
    under the same key. *)
Lemma rewrite_step_localizes (key : string) (v : pyval) (inner : pydict) :
  dict_get key inner = Some v ->
  kerchunk_refs inner ->
  rewrite_step key inner = Return (dict_set key (localized v) inner).
Proof.
  intros Hg Hk. unfold rewrite_step. rewrite Hg.
  destruct (localized_cases v) as [[u [b [c ->]]] | [Hloc Hno]].
  - cbn [py_in py_replace localized].
    destruct (PyStr.contains "https://" u) eqn:Hc; [reflexivity|].
    rewrite replace_absent; [ | discriminate | ].
    + now rewrite dict_set_same_value.
    + destruct (PyStr.contains "https://dap.ceda.ac.uk/" u) eqn:Hc'; [|reflexivity].
      change "https://dap.ceda.ac.uk/" with ("https://" ++ "dap.ceda.ac.uk/") in Hc'.
      apply contains_app_l in Hc'; [congruence | discriminate].
  - rewrite Hloc, (dict_set_same_value _ _ Hg).
    destruct v as [| | | |l|]; try reflexivity.
    destruct l as [|a l]; [reflexivity|].
    destruct l as [|b [|c [|d l]]]; try (destruct a; reflexivity).
    destruct (Hk _ _ _ _ Hg) as [u ->]. now destruct (Hno u b c).
Qed.

Lemma kerchunk_refs_set (key : string) (v : pyval) (inner : pydict) :
  kerchunk_refs inner ->
  dict_get key inner = Some v ->
  kerchunk_refs (dict_set key (localized v) inner).
Proof.
  intros Hk Hg k a b c Hget.
  destruct (string_dec key k) as [->|Hne].
  - rewrite dict_get_set_same in Hget. injection Hget as Hloc.
    destruct (localized_cases v) as [[u [b' [c' ->]]] | [Hsame _]].
    + cbn [localized] in Hloc. injection Hloc as <- _ _. eauto.
    + rewrite Hsame in Hloc. subst v. eapply Hk; eassumption.
  - rewrite dict_get_set_other in Hget by assumption. eapply Hk; eassumption.
Qed.

(** The loop over the keys: every key visited has its value localised, every
    other key keeps its value, and the keys themselves stay as they are. *)
Lemma rewrite_loop_localizes (ks : list string) (inner : pydict) :
  NoDup ks ->
  (forall k, In k ks -> dict_get k inner <> None) ->
  kerchunk_refs inner ->
  exists inner',
    rewrite_loop ks inner = Return inner' /\
    keys inner' = keys inner /\
    (forall k, In k ks -> dict_get k inner' = option_map localized (dict_get k inner)) /\
    (forall k, ~ In k ks -> dict_get k inner' = dict_get k inner).
Proof.
  revert inner. induction ks as [|k0 ks IH]; intros inner Hnd Hin Hk.
  - exists inner. repeat split; auto. intros k [].
  - inversion Hnd as [|? ? Hfresh Hnd']; subst.
    destruct (dict_get k0 inner) as [v0|] eqn:Hg0;
      [|now destruct (Hin k0 (or_introl eq_refl))].
    cbn [rewrite_loop]. rewrite (rewrite_step_localizes _ Hg0 Hk).
    destruct (IH (dict_set k0 (localized v0) inner)) as [inner' [Hloop [Hkeys [Hvis Hrest]]]].
    + assumption.
    + intros k Hk'. destruct (string_dec k0 k) as [->|Hne].
      * rewrite dict_get_set_same. discriminate.
      * rewrite dict_get_set_other by assumption. apply Hin. now right.
    + now apply kerchunk_refs_set.
    + exists inner'. split; [assumption|]. split; [|split].
      * rewrite Hkeys, keys_set. unfold dict_mem. now rewrite Hg0.
      * intros k [->|Hk'].
        -- rewrite (Hrest _ Hfresh), dict_get_set_same, Hg0. reflexivity.
        -- rewrite (Hvis _ Hk'). rewrite dict_get_set_other; [reflexivity|].
           intros ->. contradiction.
      * intros k Hk'. rewrite Hrest by (intros Hi; apply Hk'; now right).
        apply dict_get_set_other. intros ->. apply Hk'. now left.
Qed.

(** C5.  On a reference document whose [refs] entry is a mapping of scalars
    and [[url, offset, length]] sequences, the rewriting step returns the
    document with the same keys, every value replaced by its localised form:
    a 3-element sequence has [https://dap.ceda.ac.uk/] in its first element
    replaced by [/], and a value that is not a 3-element sequence is
    unchanged.  The entries that change are exactly the 3-element sequences
    whose first element contains [https://dap.ceda.ac.uk/]. *)
Theorem rewrite_refs_localizes (top inner : pydict) :
  dict_get "refs" top = Some (PDict inner) ->
  dict_wf inner ->
  kerchunk_refs inner ->
  exists inner',
    rewrite_refs (PDict top) = Return (PDict (dict_set "refs" (PDict inner') top)) /\
    keys inner' = keys inner /\
    forall k v,
      dict_get k inner = Some v ->
      dict_get k inner' = Some (localized v) /\
      (is_triple v = false -> localized v = v) /\
      (localized v <> v <->
       exists u offset length,
         v = PList [PStr u; offset; length] /\
         PyStr.contains "https://dap.ceda.ac.uk/" u = true).
Proof.
  intros Hrefs Hwf Hk.
  destruct (@rewrite_loop_localizes (keys inner) inner Hwf) as [inner' [Hloop [Hkeys [Hvis _]]]].
  - intros k Hin Hnone. now apply dict_get_None_keys in Hnone.
  - assumption.
  - exists inner'. split; [|split; [assumption|]].
    + unfold rewrite_refs. now rewrite Hrefs, Hloop.
    + intros k v Hg. split; [|split].
      * rewrite Hvis, Hg; [reflexivity|].
        destruct (in_dec string_dec k (keys inner)) as [Hin|Hnin]; [assumption|].
        apply dict_get_None_keys in Hnin. congruence.
      * intros Hnt. destruct (localized_cases v) as [[u [b [c ->]]] | [Hsame _]];
          [discriminate | assumption].
      * split.
        -- intros Hch. destruct (localized_cases v) as [[u [b [c ->]]] | [Hsame _]];
             [|contradiction].
           exists u, b, c. split; [reflexivity|].
           destruct (PyStr.contains "https://dap.ceda.ac.uk/" u) eqn:Hc; [reflexivity|].
           exfalso. apply Hch. cbn [localized].
           rewrite replace_absent; [reflexivity | discriminate | assumption].
        -- intros [u [b [c [-> Hc]]]]. cbn [localized]. intros Heq.
           injection Heq as Heq.
           revert Heq. apply (@replace_scan_present "h" "/"); [discriminate | assumption].
Qed.

Lemma rewrite_refs_localizes_witness :
  exists inner',
    rewrite_refs Samples.refs_doc
    = Return (PDict [("refs", PDict inner')]) /\
    keys inner' = ["a"; "b"] /\
    dict_get "a" inner' = Some (PList [PStr "/x/y"; PInt 10; PInt 20]) /\
    dict_get "b" inner' = Some (PStr "scalar").
Proof.
  destruct (@rewrite_refs_localizes
              [("refs", PDict [("a", PList [PStr "https://dap.ceda.ac.uk/x/y"; PInt 10; PInt 20]);
                               ("b", PStr "scalar")])]
              [("a", PList [PStr "https://dap.ceda.ac.uk/x/y"; PInt 10; PInt 20]);
               ("b", PStr "scalar")]
              eq_refl
              ltac:(repeat constructor; simpl; intuition discriminate))
    as [inner' [Hret [Hkeys Hlook]]].
  - intros k a b c. cbn [dict_get keqb Key_string].
    destruct (String.eqb k "a").
    + intros [= <- _ _]. now exists "https://dap.ceda.ac.uk/x/y".
    + destruct (String.eqb k "b"); discriminate.
  - exists inner'. split; [exact Hret|]. split; [exact Hkeys|]. split.
    + exact (proj1 (Hlook "a" _ eq_refl)).
    + exact (proj1 (Hlook "b" _ eq_refl)).
Defined.

(** ** Flattening at construction of a cluster *)

Section Flattening.
Implicit Types (l : list P.product) (acc : dict (option string) P.product).

Let store acc (p : P.product) := dict_set (P.id p) p acc.

Lemma add_entry_flattened (entries : list C.entry) acc :
  fold_left C.add_entry entries acc = fold_left store (flattened entries) acc.
Proof.
  revert acc. induction entries as [|e entries IH]; intros acc; [reflexivity|].
  unfold flattened. cbn [fold_left flat_map]. rewrite fold_left_app.
  rewrite IH. unfold flattened. f_equal. now destruct e.
Qed.

Lemma find_snoc {A} (f : A -> bool) (l : list A) (x : A) :
  find f (l ++ [x])%list
  = match find f l with
    | Some y => Some y
    | None => if f x then Some x else None
    end.
Proof.
  induction l as [|y l IH]; simpl; [reflexivity|].
  now destruct (f y).
Qed.

(** The mapping after the loop: each key is bound to the last product
    stored under it, and keys never written keep their binding. *)
Lemma store_all_get (k : option string) l acc :
  dict_get k (fold_left store l acc)
  = match last_with_id k l with
    | Some q => Some q
    | None => dict_get k acc
    end.
Proof.
  unfold last_with_id. revert acc.
  induction l as [|p l IH]; intros acc; [reflexivity|].
  cbn [fold_left rev]. rewrite IH, find_snoc.
  destruct (find (fun q => keqb k (P.id q)) (rev l)); [reflexivity|].
  unfold store. destruct (keqb k (P.id p)) eqn:Hk.
  - apply keqb_eq in Hk. subst k. apply dict_get_set_same.
  - apply dict_get_set_other. intros Heq. subst k.
    rewrite (keqb_refl (P.id p)) in Hk. discriminate.
Qed.

Lemma store_all_wf l acc : dict_wf acc -> dict_wf (fold_left store l acc).
Proof.
  revert acc. induction l as [|p l IH]; intros acc Hwf; [assumption|].
  cbn [fold_left]. apply IH. now apply dict_wf_set.
Qed.

Lemma last_with_id_sound (k : option string) l (q : P.product) :
  last_with_id k l = Some q -> In q l /\ P.id q = k.
Proof.
  unfold last_with_id. intros Hf. apply find_some in Hf. destruct Hf as [Hin Hk].
  apply keqb_eq in Hk. split; [now apply in_rev | now symmetry].
Qed.

Lemma last_with_id_present l (p : P.product) :
  In p l -> exists q, last_with_id (P.id p) l = Some q.
Proof.
  unfold last_with_id. intros Hin.
  destruct (find (fun q => keqb (P.id p) (P.id q)) (rev l)) as [q|] eqn:Hf; [eauto|].
  apply in_rev in Hin. pose proof (find_none _ _ Hf _ Hin) as Hk.
  cbv beta in Hk. rewrite (keqb_refl (P.id p)) in Hk. discriminate.
Qed.

Lemma last_with_id_last l1 l2 (p : P.product) :
  (forall q, In q l2 -> P.id q <> P.id p) ->
  last_with_id (P.id p) (l1 ++ p :: l2) = Some p.
Proof.
  intros Hlater. unfold last_with_id.
  rewrite rev_app_distr. cbn [rev]. rewrite <- app_assoc. cbn [app].
  induction (rev l2) as [|q l IH] eqn:Hr in l2, Hlater |- *.
  - cbn [app find]. now rewrite (keqb_refl (P.id p)).
  - cbn [app find].
    assert (Hq : In q l2) by (apply in_rev; rewrite Hr; now left).
    rewrite keqb_neq by (intros Heq; now apply (Hlater q Hq)).
    apply (IH (rev l)).
    + intros q' Hq'. apply Hlater. apply in_rev. rewrite Hr. right.
      now apply in_rev in Hq'.
    + now rewrite rev_involutive.
Qed.
End Flattening.

Lemma cluster_init_products (E : Env) (entries : list C.entry) (parent_id : option string)
    (meta : pyval) (local_only show_unreachable : bool) (c : C.cluster) :
  C.__init__ E entries parent_id meta local_only show_unreachable = Return c ->
  C._products c = fold_left C.add_entry entries [].
Proof.
  unfold C.__init__.
  destruct (hash_id E parent_id) as [e|hashed]; [discriminate|].
  destruct (if truthy meta then meta else PDict []); try discriminate.
  now intros [= <-].
Qed.

(** The id is computed before anything else: an exception of [hash_id] is
    the outcome of the constructor. *)
Lemma cluster_init_hash_raises (E : Env) (entries : list C.entry)
    (parent_id : option string) (meta : pyval) (local_only show_unreachable : bool)
    (e : exn) :
  hash_id E parent_id = Raise e ->
  C.__init__ E entries parent_id meta local_only show_unreachable = Raise e.
Proof.
  intros Hh. unfold C.__init__. now rewrite Hh.
Qed.

(** C2 (as amended).  A nested cluster stands for the products its
    [products] view lists: those not marked [unreachable], or all of them when
    the nested cluster shows unreachable products.  With that reading, the
    outer mapping binds no id twice; it binds each id to the last product of
    the flattened sequence that carries it, so every product listed by a
    nested cluster has its id bound, and a product with no later product of
    the same id is itself the value bound (last write wins).  The constructor
    returns whenever [hash_id] answers for the parent id and meta is falsy or
    a mapping. *)
Theorem cluster_flattening
    (E : Env) (entries : list C.entry) (parent_id : option string)
    (meta : pyval) (local_only show_unreachable : bool) :
  (truthy meta = false \/ (exists m, meta = PDict m) ->
   (exists hashed, hash_id E parent_id = Return hashed) ->
   exists c, C.__init__ E entries parent_id meta local_only show_unreachable = Return c) /\
  (forall c,
      C.__init__ E entries parent_id meta local_only show_unreachable = Return c ->
      dict_wf (C._products c) /\
      (forall k, dict_get k (C._products c) = last_with_id k (flattened entries)) /\
      (forall x p,
          In (C.ECluster x) entries -> In p (C.products x) ->
          exists q, dict_get (P.id p) (C._products c) = Some q /\
                    P.id q = P.id p /\ In q (flattened entries)) /\
      (forall l1 p l2,
          flattened entries = (l1 ++ p :: l2)%list ->
          (forall q, In q l2 -> P.id q <> P.id p) ->
          dict_get (P.id p) (C._products c) = Some p)).
Proof.
  split.
  - intros Hmeta [hashed Hh]. unfold C.__init__. rewrite Hh.
    destruct Hmeta as [Hf | [m ->]].
    + rewrite Hf. eauto.
    + destruct (truthy (PDict m)); eauto.
  - intros c Hc. apply cluster_init_products in Hc.
    assert (Hget : forall k, dict_get k (C._products c) = last_with_id k (flattened entries)).
    { intros k. rewrite Hc, add_entry_flattened, store_all_get.
      now destruct (last_with_id k (flattened entries)). }
    split; [|split; [exact Hget | split]].
    + rewrite Hc, add_entry_flattened. apply store_all_wf. constructor.
    + intros x p Hx Hp.
      assert (Hin : In p (flattened entries)).
      { unfold flattened. apply in_flat_map. exists (C.ECluster x). now split. }
      destruct (last_with_id_present _ _ Hin) as [q Hq].
      exists q. rewrite Hget. split; [exact Hq|].
      apply last_with_id_sound in Hq. destruct Hq as [Hq1 Hq2]. now split.
    + intros l1 p l2 Hfl Hlater. rewrite Hget, Hfl. now apply last_with_id_last.
Qed.

Lemma cluster_flattening_witness :
  exists c,
    C.__init__ Samples.env_local
      [C.EProduct (Samples.product_of (Some "a") (Some "kerchunk") "all");
       C.ECluster Samples.cluster_x]
      (Some "item") PNone false false = Return c /\
    keys (C._products c) = [Some "a"; Some "c"] /\
    dict_get (Some "a") (C._products c)
    = Some (Samples.product_of (Some "a") (Some "CFA") "all") /\
    dict_get (Some "c") (C._products c)
    = Some (Samples.product_of (Some "c") (Some "CFA") "all").
Proof.
  destruct (@cluster_flattening Samples.env_local
              [C.EProduct (Samples.product_of (Some "a") (Some "kerchunk") "all");
               C.ECluster Samples.cluster_x]
              (Some "item") PNone false false) as [Hret Hspec].
  destruct (Hret (or_introl eq_refl) (ex_intro _ (PStr "0") eq_refl)) as [c Hc].
  exists c. split; [exact Hc|].
  destruct (Hspec c Hc) as [_ [Hget _]].
  split; [|split; [exact (Hget (Some "a")) | exact (Hget (Some "c"))]].
  injection Hc as <-. reflexivity.
Defined.

(** C2, as first stated, fails: the nested cluster holds a product marked
    [unreachable] and hides it, and that product is not merged into the outer
    mapping. *)
Lemma hidden_product_not_merged :
  C.__init__ Samples.env_local
    [C.EProduct (Samples.product_of (Some "b") (Some "kerchunk") "unreachable");
     C.EProduct (Samples.product_of (Some "c") (Some "CFA") "all")]
    (Some "item") PNone false false = Return Samples.cluster_hidden /\
  In (Samples.product_of (Some "b") (Some "kerchunk") "unreachable")
     (values (C._products Samples.cluster_hidden)) /\
  exists c,
    C.__init__ Samples.env_local
      [C.EProduct (Samples.product_of (Some "a") (Some "kerchunk") "all");
       C.ECluster Samples.cluster_hidden]
      (Some "item") PNone false false = Return c /\
    keys (C._products c) = [Some "a"; Some "c"] /\
    dict_get (Some "b") (C._products c) = None.
Proof.
  split; [reflexivity|]. split; [now left|].
  eexists. split; [reflexivity|]. split; reflexivity.
Qed.

(** * Further properties of the code *)

(** ** More on the construction of a product *)

Section ConstructionCases.
Variable E : Env.
Variables (asset_stac : pydict) (id cf : option string).
Variables (order stac_attrs properties : pyval).

Let init mode meta := P.__init__ E asset_stac id cf order mode meta stac_attrs properties.
Let built := constructed asset_stac id cf order.

Lemma host_absent_without_scheme (h : string) :
  PyStr.contains "https://" h = false ->
  PyStr.replace "https://dap.ceda.ac.uk" "" h = h.
Proof.
  intros Hc. apply replace_absent; [discriminate|].
  destruct (PyStr.contains "https://dap.ceda.ac.uk" h) eqn:Hc'; [|reflexivity].
  change "https://dap.ceda.ac.uk" with ("https://" ++ "dap.ceda.ac.uk") in Hc'.
  apply contains_app_l in Hc'; [congruence | discriminate].
Qed.

(** X1.  A product built from a string href that does not contain
    [https://] is classified by the local disk alone: the constructor makes
    exactly one external call, the file test on the href as it stands, and
    the visibility is [all] when the file exists and [unreachable] when it
    does not. *)
Theorem init_local_href (m : pydict) (h : string) (w : world) :
  dict_get "href" asset_stac = Some (PStr h) ->
  PyStr.contains "https://" h = false ->
  init "xarray" (PDict m) w
  = (Return (built m stac_attrs properties
               (if os_path_isfile E (clock w) h then "all" else "unreachable")),
     record_call (EvIsFile h) w).
Proof.
  intros Hh Hc.
  unfold init, P.__init__, P._set_visibility, P.href, py_in, py_replace, py_or_dict.
  cbn [String.eqb Ascii.eqb Bool.eqb negb]. run.
  rewrite Hh. run. rewrite Hc. run. rewrite Hh. run.
  rewrite (host_absent_without_scheme _ Hc).
  destruct (os_path_isfile E (clock w) h); reflexivity.
Qed.

(** X2.  A product built from a string href that contains [https://] and
    whose HEAD probe is answered 200 has visibility [all]; the probe is the
    only external call, the local disk is not consulted. *)
Theorem init_probe_ok (m : pydict) (h : string) (w : world) :
  dict_get "href" asset_stac = Some (PStr h) ->
  PyStr.contains "https://" h = true ->
  requests_head E (clock w) (PStr h) = Return 200 ->
  init "xarray" (PDict m) w
  = (Return (built m stac_attrs properties "all"), record_call (EvHead (PStr h)) w).
Proof.
  intros Hh Hc Hs.
  unfold init, P.__init__, P._set_visibility, P.href, py_in, py_replace, py_or_dict.
  cbn [String.eqb Ascii.eqb Bool.eqb negb]. run.
  rewrite Hh. run. rewrite Hc. run. rewrite Hh. run. rewrite Hs. reflexivity.
Qed.

(** X3.  An exception raised by the HEAD probe is not caught: it leaves the
    constructor as it is, after that single call, and no product is built. *)
Theorem init_probe_raises (m : pydict) (h : string) (e : exn) (w : world) :
  dict_get "href" asset_stac = Some (PStr h) ->
  PyStr.contains "https://" h = true ->
  requests_head E (clock w) (PStr h) = Raise e ->
  init "xarray" (PDict m) w = (Raise e, record_call (EvHead (PStr h)) w).
Proof.
  intros Hh Hc Hs.
  unfold init, P.__init__, P._set_visibility, P.href, py_in, py_replace, py_or_dict.
  cbn [String.eqb Ascii.eqb Bool.eqb negb]. run.
  rewrite Hh. run. rewrite Hc. run. rewrite Hh. run. rewrite Hs. reflexivity.
Qed.

(** X4.  An asset descriptor without an [href] entry cannot be made into a
    product: the constructor raises [KeyError('href')] before any external
    call. *)
Theorem init_no_href (m : pydict) (w : world) :
  dict_get "href" asset_stac = None ->
  init "xarray" (PDict m) w = (Raise (KeyError "href"), w).
Proof.
  intros Hh.
  unfold init, P.__init__, P._set_visibility, P.href, py_or_dict.
  cbn [String.eqb Ascii.eqb Bool.eqb negb]. run.
  rewrite Hh. reflexivity.
Qed.

(** Whatever the constructor returns is the object built from its arguments,
    with one of the three visibilities, and the asset had an href. *)
Lemma init_returns_shape (mode : string) (meta : pyval) (w w' : world) (p : P.product) :
  init mode meta w = (Return p, w') ->
  exists m vis,
    meta = PDict m /\
    p = built m stac_attrs properties vis /\
    (vis = "all" \/ vis = "local-only" \/ vis = "unreachable") /\
    dict_mem "href" asset_stac = true.
Proof.
  intros Hinit.
  destruct (init_returns_inv _ _ _ _ _ _ _ _ _ _ Hinit) as [-> [m ->]].
  exists m. revert Hinit.
  unfold init, P.__init__, P._set_visibility, P.href, py_or_dict, dict_mem.
  cbn [String.eqb Ascii.eqb Bool.eqb negb]. run.
  destruct (dict_get "href" asset_stac) as [h|] eqn:Hh; [|discriminate].
  run. destruct (py_in "https://" h) as [e|[|]]; run; try discriminate.
  - rewrite Hh. run.
    destruct (requests_head E (clock w) h) as [e|s]; run; try discriminate.
    destruct (s =? 200); cbn [negb]; run.
    + intros [= <- <-]. exists "all". repeat split; auto.
    + rewrite Hh. run.
      destruct (py_replace "https://dap.ceda.ac.uk" "" h) as [e|l]; run; try discriminate.
      destruct (os_path_isfile E _ l); cbn [negb]; run; intros [= <- <-].
      * exists "local-only". repeat split; auto.
      * exists "unreachable". repeat split; auto.
  - rewrite Hh. run.
    destruct (py_replace "https://dap.ceda.ac.uk" "" h) as [e|l]; run; try discriminate.
    destruct (os_path_isfile E _ l); cbn [negb]; run; intros [= <- <-].
    + exists "all". repeat split; auto.
    + exists "unreachable". repeat split; auto.
Qed.
End ConstructionCases.

Lemma init_local_href_witness :
  P.__init__ Samples.env_local Samples.asset_local (Some "a") (Some "kerchunk")
             PNone "xarray" (PDict [("collection", PStr "cmip6")]) PNone PNone Samples.w0
  = (Return (constructed Samples.asset_local (Some "a") (Some "kerchunk") PNone
               [("collection", PStr "cmip6")] PNone PNone "all"),
     {| calls := [EvIsFile Samples.local_path]; log := [] |}).
Proof.
  apply (@init_local_href Samples.env_local Samples.asset_local (Some "a")
           (Some "kerchunk") PNone PNone PNone [("collection", PStr "cmip6")]
           Samples.local_path Samples.w0 eq_refl eq_refl).
Defined.

Lemma init_probe_ok_witness :
  P.__init__ Samples.env_flaky Samples.asset_remote (Some "a") (Some "kerchunk")
             PNone "xarray" (PDict []) PNone PNone Samples.w0
  = (Return (constructed Samples.asset_remote (Some "a") (Some "kerchunk") PNone
               [] PNone PNone "all"),
     {| calls := [EvHead (PStr Samples.remote_href)]; log := [] |}).
Proof.
  apply (@init_probe_ok Samples.env_flaky Samples.asset_remote (Some "a")
           (Some "kerchunk") PNone PNone PNone [] Samples.remote_href Samples.w0
           eq_refl eq_refl eq_refl).
Defined.

Lemma init_probe_raises_witness :
  P.__init__ Samples.env_no_network Samples.asset_remote (Some "a") (Some "kerchunk")
             PNone "xarray" (PDict []) PNone PNone Samples.w0
  = (Raise (OtherError "ConnectionError"),
     {| calls := [EvHead (PStr Samples.remote_href)]; log := [] |}).
Proof.
  apply (@init_probe_raises Samples.env_no_network Samples.asset_remote (Some "a")
           (Some "kerchunk") PNone PNone PNone [] Samples.remote_href
           (OtherError "ConnectionError") Samples.w0 eq_refl eq_refl eq_refl).
Defined.

Lemma init_no_href_witness :
  P.__init__ Samples.env_local [("mapper_kwargs", PDict [])] (Some "a") (Some "kerchunk")
             PNone "xarray" (PDict []) PNone PNone Samples.w0
  = (Raise (KeyError "href"), Samples.w0).
Proof.
  apply (@init_no_href Samples.env_local [("mapper_kwargs", PDict [])] (Some "a")
           (Some "kerchunk") PNone PNone PNone [] Samples.w0 eq_refl).
Defined.

(** X5.  Whenever the constructor returns, the object holds the arguments it
    was given, unchanged, its visibility is one of [all], [local-only] and
    [unreachable], and its asset descriptor has an [href] entry. *)
Theorem constructed_product_fields
    (E : Env) (asset_stac : pydict) (id cf : option string)
    (order stac_attrs properties meta : pyval) (mode : string)
    (w w' : world) (p : P.product) :
  P.__init__ E asset_stac id cf order mode meta stac_attrs properties w = (Return p, w') ->
  P.id p = id /\ P.cloud_format p = cf /\ P._asset_stac p = asset_stac /\
  P._order p = order /\ P._stac_attrs p = stac_attrs /\ P._properties p = properties /\
  (P.visibility p = "all" \/ P.visibility p = "local-only"
   \/ P.visibility p = "unreachable") /\
  exists h, dict_get "href" (P._asset_stac p) = Some h.
Proof.
  intros Hinit.
  destruct (init_returns_shape _ _ _ _ _ _ _ _ _ _ Hinit) as [m [vis [-> [-> [Hvis Hh]]]]].
  cbn. repeat split; try reflexivity; [exact Hvis|].
  unfold dict_mem in Hh. destruct (dict_get "href" asset_stac) as [h|]; [eauto | discriminate].
Qed.

Lemma constructed_product_fields_witness :
  let p := constructed Samples.asset_local (Some "a") (Some "kerchunk") PNone
             [("collection", PStr "cmip6")] PNone PNone "all" in
  P.id p = Some "a" /\ P.cloud_format p = Some "kerchunk" /\
  P._asset_stac p = Samples.asset_local /\
  P._order p = PNone /\ P._stac_attrs p = PNone /\ P._properties p = PNone /\
  (P.visibility p = "all" \/ P.visibility p = "local-only"
   \/ P.visibility p = "unreachable") /\
  exists h, dict_get "href" (P._asset_stac p) = Some h.
Proof.
  exact (@constructed_product_fields Samples.env_local Samples.asset_local (Some "a")
           (Some "kerchunk") PNone PNone PNone (PDict [("collection", PStr "cmip6")])
           "xarray" Samples.w0 _ _ eq_refl).
Defined.

(** X6.  The metadata of a constructed product is the caller's mapping with
    [asset_id] and [cloud_format] written over it: these two keys carry the
    id and the format given to the constructor, whatever the caller's mapping
    bound them to, and every other key is bound as in the caller's mapping. *)
Theorem constructed_product_meta
    (E : Env) (asset_stac : pydict) (id cf : option string)
    (order stac_attrs properties meta : pyval) (mode : string)
    (w w' : world) (p : P.product) :
  P.__init__ E asset_stac id cf order mode meta stac_attrs properties w = (Return p, w') ->
  exists m,
    meta = PDict m /\
    dict_get "asset_id" (P._meta p) = Some (of_id id) /\
    dict_get "cloud_format" (P._meta p) = Some (of_id cf) /\
    forall k, k <> "asset_id" -> k <> "cloud_format" ->
              dict_get k (P._meta p) = dict_get k m.
Proof.
  intros Hinit.
  destruct (init_returns_shape _ _ _ _ _ _ _ _ _ _ Hinit) as [m [vis [-> [-> _]]]].
  exists m. split; [reflexivity|].
  assert (Hwf : dict_wf [("asset_id", of_id id); ("cloud_format", of_id cf)]).
  { repeat constructor; simpl; intuition discriminate. }
  cbn [constructed P._meta]. split; [|split].
  - now rewrite (dict_get_union _ _ Hwf).
  - now rewrite (dict_get_union _ _ Hwf).
  - intros k Hk1 Hk2. rewrite (dict_get_union _ _ Hwf). cbn [dict_get keqb Key_string].
    apply String.eqb_neq in Hk1, Hk2. now rewrite Hk1, Hk2.
Qed.

Lemma constructed_product_meta_witness :
  exists m,
    PDict [("collection", PStr "cmip6"); ("asset_id", PStr "stale")] = PDict m /\
    dict_get "asset_id"
      (P._meta (constructed Samples.asset_local (Some "a") (Some "kerchunk") PNone
                  [("collection", PStr "cmip6"); ("asset_id", PStr "stale")]
                  PNone PNone "all")) = Some (PStr "a").
Proof.
  destruct (@constructed_product_meta Samples.env_local Samples.asset_local (Some "a")
              (Some "kerchunk") PNone PNone PNone
              (PDict [("collection", PStr "cmip6"); ("asset_id", PStr "stale")])
              "xarray" Samples.w0 _ _ eq_refl) as [m [Hm [Hid _]]].
  exists m. split; [exact Hm | exact Hid].
Defined.

(** ** More on opening a product *)

Section DictRemove.
Context {K V : Type} {HK : Key K} {HL : KeyLaws K}.

Lemma dict_get_remove (k k0 : K) (d : dict K V) :
  dict_wf d ->
  dict_get k (dict_remove k0 d) = if keqb k k0 then None else dict_get k d.
Proof.
  induction d as [|[k' v'] d IH]; intros Hwf; simpl.
  - now destruct (keqb k k0).
  - destruct (keqb k0 k') eqn:H0.
    + apply keqb_eq in H0. subst k'.
      destruct (keqb k k0) eqn:Hk; [|reflexivity].
      apply keqb_eq in Hk. subst k. apply (dict_wf_head_fresh Hwf).
    + simpl. rewrite IH by (eapply dict_wf_tail; eassumption).
      destruct (keqb k k') eqn:Hk'; [|reflexivity].
      apply keqb_eq in Hk'. subst k'.
      rewrite keqb_neq; [reflexivity|].
      intros ->. rewrite keqb_refl in H0. discriminate.
Qed.

Lemma keys_remove_incl (k0 : K) (d : dict K V) :
  incl (keys (dict_remove k0 d)) (keys d).
Proof.
  induction d as [|[k' v'] d IH]; simpl; [apply incl_refl|].
  destruct (keqb k0 k'); simpl.
  - apply incl_tl, incl_refl.
  - intros x [->|Hx]; [now left | right; now apply IH].
Qed.

Lemma dict_wf_remove (k0 : K) (d : dict K V) : dict_wf d -> dict_wf (dict_remove k0 d).
Proof.
  unfold dict_wf. induction d as [|[k' v'] d IH]; simpl; intros Hwf; [constructor|].
  inversion Hwf as [|? ? Hfresh Hwf']; subst.
  destruct (keqb k0 k'); simpl; [assumption|].
  constructor; [|auto].
  intros Hin. apply Hfresh. now apply (keys_remove_incl k0 d).
Qed.
End DictRemove.

(** X7.  A kerchunk or CFA product whose asset descriptor has no [href]
    cannot be opened: once the two guards let the call through,
    [open_dataset] raises the [ValueError] that says so, and makes no external
    call. *)
Theorem open_without_href
    (E : Env) (p : P.product) (local_only : bool) (kwargs : pydict) (w : world) :
  dict_get "href" (P._asset_stac p) = None ->
  P.format_is (P._cloud_format p) "kerchunk" = true
  \/ P.format_is (P._cloud_format p) "CFA" = true ->
  String.eqb (P.visibility p) "local-only" && negb local_only = false ->
  P.open_dataset E local_only kwargs (p, w)
  = (Raise (ValueError P.no_href_message), (p, w)).
Proof.
  intros Hh Hf Hv. destruct p as [i o cf a m sa pr vis].
  cbn [P._asset_stac P._cloud_format P.visibility] in Hh, Hf, Hv.
  assert (Hset : P.format_unset cf = false).
  { destruct cf as [s|]; [|destruct Hf; discriminate]. cbn in Hf |- *.
    destruct Hf as [Hf|Hf]; apply String.eqb_eq in Hf; subst; reflexivity. }
  unfold P.open_dataset. run. rewrite Hset, Hv.
  destruct (P.format_is cf "kerchunk") eqn:Hk.
  - unfold P._open_kerchunk. run. rewrite Hh. reflexivity.
  - destruct Hf as [Hf|Hf]; [discriminate|]. rewrite Hf.
    unfold P._open_cfa. run. rewrite Hh. reflexivity.
Qed.

Lemma open_without_href_witness :
  P.open_dataset Samples.env_local false [] (Samples.product_without_href "CFA", Samples.w0)
  = (Raise (ValueError P.no_href_message), (Samples.product_without_href "CFA", Samples.w0)).
Proof.
  apply (@open_without_href Samples.env_local (Samples.product_without_href "CFA")
           false [] Samples.w0 eq_refl (or_intror eq_refl) eq_refl).
Defined.

(** X8.  What [open_dataset] adds to the format-specific open, once its
    guards let the call through: a [FileNotFoundError] is raised again with a
    message that names the href of the asset, and every other outcome, a
    dataset or any other exception, is passed on as it is, with the same
    external calls. *)
Theorem open_wraps_missing_resource
    (E : Env) (p : P.product) (local_only : bool) (kwargs : pydict) (w : world)
    (h : pyval) :
  dict_get "href" (P._asset_stac p) = Some h ->
  P.format_is (P._cloud_format p) "kerchunk" = true
  \/ P.format_is (P._cloud_format p) "CFA" = true ->
  String.eqb (P.visibility p) "local-only" && negb local_only = false ->
  P.open_dataset E local_only kwargs (p, w)
  = match (if P.format_is (P._cloud_format p) "kerchunk"
           then P._open_kerchunk E local_only kwargs
           else P._open_cfa E kwargs) (p, w) with
    | (Raise (FileNotFoundError _), st) =>
        (Raise (FileNotFoundError
                  [Lit "The requested resource could not be located: "; Fmt h]), st)
    | other => other
    end.
Proof.
  intros Hh Hf Hv.
  assert (Hset : P.format_unset (P._cloud_format p) = false).
  { destruct (P._cloud_format p) as [s|]; [|destruct Hf; discriminate]. cbn in Hf |- *.
    destruct Hf as [Hf|Hf]; apply String.eqb_eq in Hf; subst; reflexivity. }
  assert (Hkeep : keeps_self (if P.format_is (P._cloud_format p) "kerchunk"
                              then P._open_kerchunk E local_only kwargs
                              else P._open_cfa E kwargs)).
  { destruct (P.format_is (P._cloud_format p) "kerchunk");
      [apply keeps_open_kerchunk | apply keeps_open_cfa]. }
  specialize (Hkeep p w).
  unfold P.open_dataset. run_m. rewrite Hset, Hv.
  destruct (P.format_is (P._cloud_format p) "kerchunk") eqn:Hk.
  - destruct (P._open_kerchunk E local_only kwargs (p, w)) as [[e|d] [p' w']];
      cbn [fst snd] in Hkeep; subst p'; [|reflexivity].
    destruct e; try reflexivity. now rewrite Hh.
  - destruct Hf as [Hf|Hf]; [discriminate|]. rewrite Hf.
    destruct (P._open_cfa E kwargs (p, w)) as [[e|d] [p' w']];
      cbn [fst snd] in Hkeep; subst p'; [|reflexivity].
    destruct e; try reflexivity. now rewrite Hh.
Qed.

Lemma open_wraps_missing_resource_witness :
  P.open_dataset Samples.env_offline false []
    (Samples.product_of (Some "a") (Some "kerchunk") "all", Samples.w0)
  = (Raise (FileNotFoundError
              [Lit "The requested resource could not be located: ";
               Fmt (PStr Samples.remote_href)]),
     (Samples.product_of (Some "a") (Some "kerchunk") "all",
      {| calls := [EvOpenZarr (Mapper 0) [("consolidated", PBool false)];
                   EvGetMapper (PStr Samples.remote_href) []];
         log := [] |})).
Proof.
  exact (@open_wraps_missing_resource Samples.env_offline
           (Samples.product_of (Some "a") (Some "kerchunk") "all") false []
           Samples.w0 (PStr Samples.remote_href) eq_refl (or_introl eq_refl) eq_refl).
Defined.

(** X9.  When a CFA product is opened, [xr.open_dataset] is the only external
    call.  It receives the href of the asset, the caller's [cfa_options] (an
    empty mapping when absent or falsy) as a separate argument, and keyword
    options that bind each other key as the caller's options do and, failing
    that, as the asset's [open_xarray_kwargs] do; [cfa_options] itself is not
    among them. *)
Theorem cfa_open_options
    (E : Env) (p : P.product) (kwargs axk : pydict) (href : pyval) (w : world) :
  dict_get "href" (P._asset_stac p) = Some href ->
  or_empty (dict_get "open_xarray_kwargs" (P._asset_stac p)) = PDict axk ->
  dict_wf kwargs ->
  dict_mem "engine" kwargs = false ->
  dict_mem "engine" axk = false ->
  dict_mem "cfa_options" axk = false ->
  exists okw,
    P._open_cfa E kwargs (p, w)
    = (xr_open_dataset E (clock w) href (or_empty (dict_get "cfa_options" kwargs)) okw,
       (p, record_call
             (EvOpenDataset href (or_empty (dict_get "cfa_options" kwargs)) okw) w))
    /\ forall k,
        dict_get k okw
        = if String.eqb k "cfa_options" then None
          else match dict_get k kwargs with
               | Some v => Some v
               | None => dict_get k axk
               end.
Proof.
  intros Hh Hx Hwf Hek Hea Hca.
  assert (Hget : forall k,
             dict_get k (dict_union axk (dict_remove "cfa_options" kwargs))
             = if String.eqb k "cfa_options" then None
               else match dict_get k kwargs with
                    | Some v => Some v
                    | None => dict_get k axk
                    end).
  { intros k. rewrite (dict_get_union k _ (dict_wf_remove "cfa_options" Hwf)).
    rewrite (dict_get_remove k "cfa_options" Hwf). cbn [keqb Key_string].
    destruct (String.eqb k "cfa_options") eqn:Hk; [|reflexivity].
    apply String.eqb_eq in Hk. subst k.
    unfold dict_mem in Hca. now destruct (dict_get "cfa_options" axk). }
  exists (dict_union axk (dict_remove "cfa_options" kwargs)).
  split; [|exact Hget].
  unfold P._open_cfa. run_m. rewrite Hh, Hx. cbn [py_or_dict]. run_m.
  unfold dict_mem at 1 2. rewrite !Hget. cbn [String.eqb Ascii.eqb Bool.eqb].
  unfold dict_mem in Hek, Hea.
  destruct (dict_get "engine" kwargs); [discriminate|].
  destruct (dict_get "engine" axk); [discriminate|].
  reflexivity.
Qed.

Lemma cfa_open_options_witness :
  exists okw,
    P._open_cfa Samples.env_local
      [("decode_times", PBool true); ("cfa_options", PDict [("substitutions", PStr "a:b")])]
      (Samples.product_cfa, Samples.w0)
    = (Return (Dataset 0),
       (Samples.product_cfa,
        {| calls := [EvOpenDataset (PStr Samples.local_path)
                       (PDict [("substitutions", PStr "a:b")]) okw];
           log := [] |}))
    /\ dict_get "decode_times" okw = Some (PBool true)
    /\ dict_get "chunks" okw = Some (PStr "auto")
    /\ dict_get "cfa_options" okw = None.
Proof.
  destruct (@cfa_open_options Samples.env_local Samples.product_cfa
              [("decode_times", PBool true);
               ("cfa_options", PDict [("substitutions", PStr "a:b")])]
              [("decode_times", PBool false); ("chunks", PStr "auto")]
              (PStr Samples.local_path) Samples.w0
              eq_refl eq_refl
              ltac:(repeat constructor; simpl; intuition discriminate)
              eq_refl eq_refl eq_refl) as [okw [Hopen Hget]].
  exists okw. split; [exact Hopen|].
  split; [exact (Hget "decode_times")|].
  split; [exact (Hget "chunks") | exact (Hget "cfa_options")].
Defined.

(** X10.  The keywords [engine] and [cfa_options] of the call to
    [xr.open_dataset] are set by [_open_cfa] itself: when the caller's options
    bind [engine], or the asset's [open_xarray_kwargs] bind [engine] or
    [cfa_options], the call raises [TypeError] and nothing is opened. *)
Theorem cfa_reserved_keywords
    (E : Env) (p : P.product) (kwargs axk : pydict) (href : pyval) (w : world) :
  dict_get "href" (P._asset_stac p) = Some href ->
  or_empty (dict_get "open_xarray_kwargs" (P._asset_stac p)) = PDict axk ->
  dict_wf kwargs ->
  dict_mem "engine" kwargs = true \/ dict_mem "engine" axk = true
  \/ dict_mem "cfa_options" axk = true ->
  P._open_cfa E kwargs (p, w) = (Raise TypeError, (p, w)).
Proof.
  intros Hh Hx Hwf Hclash.
  unfold P._open_cfa. run_m. rewrite Hh, Hx. cbn [py_or_dict]. run_m.
  assert (Hmem : dict_mem "engine" (dict_union axk (dict_remove "cfa_options" kwargs))
                 || dict_mem "cfa_options" (dict_union axk (dict_remove "cfa_options" kwargs))
                 = true).
  { unfold dict_mem in *.
    rewrite !(dict_get_union _ _ (dict_wf_remove "cfa_options" Hwf)).
    rewrite !(dict_get_remove _ "cfa_options" Hwf). cbn [keqb Key_string].
    cbn [String.eqb Ascii.eqb Bool.eqb].
    destruct (dict_get "engine" kwargs); [reflexivity|].
    destruct (dict_get "engine" axk); [reflexivity|].
    destruct (dict_get "cfa_options" axk); [reflexivity|].
    destruct Hclash as [Hc|[Hc|Hc]]; discriminate. }
  rewrite Hmem. reflexivity.
Qed.

Lemma cfa_reserved_keywords_witness :
  P._open_cfa Samples.env_local [("engine", PStr "netcdf4")] (Samples.product_cfa, Samples.w0)
  = (Raise TypeError, (Samples.product_cfa, Samples.w0)).
Proof.
  apply (@cfa_reserved_keywords Samples.env_local Samples.product_cfa
           [("engine", PStr "netcdf4")]
           [("decode_times", PBool false); ("chunks", PStr "auto")]
           (PStr Samples.local_path) Samples.w0 eq_refl eq_refl
           ltac:(repeat constructor; simpl; intuition discriminate)
           (or_introl eq_refl)).
Defined.

(** X11.  The keyword [fo] of the call to [fsspec.get_mapper] is set by
    [_open_kerchunk] itself: when the asset's [mapper_kwargs] bind [fo], a
    kerchunk open without [local_only] raises [TypeError] before any external
    call, and the same holds when [mapper_kwargs] is truthy but not a
    mapping. *)
Theorem kerchunk_reserved_keyword
    (E : Env) (p : P.product) (kwargs : pydict) (href : pyval) (w : world) :
  dict_get "href" (P._asset_stac p) = Some href ->
  (exists mkw, or_empty (dict_get "mapper_kwargs" (P._asset_stac p)) = PDict mkw /\
               dict_mem "fo" mkw = true)
  \/ py_splat (or_empty (dict_get "mapper_kwargs" (P._asset_stac p))) = Raise TypeError ->
  P._open_kerchunk E false kwargs (p, w) = (Raise TypeError, (p, w)).
Proof.
  intros Hh Hm. unfold P._open_kerchunk. run_m. rewrite Hh.
  destruct Hm as [[mkw [Hm Hfo]] | Hm].
  - rewrite Hm. cbn [py_splat]. rewrite Hfo. reflexivity.
  - rewrite Hm. reflexivity.
Qed.

Lemma kerchunk_reserved_keyword_witness :
  P._open_kerchunk Samples.env_local false [] (Samples.product_fo_clash, Samples.w0)
  = (Raise TypeError, (Samples.product_fo_clash, Samples.w0)).
Proof.
  apply (@kerchunk_reserved_keyword Samples.env_local Samples.product_fo_clash []
           (PStr Samples.remote_href) Samples.w0 eq_refl).
  left. exists [("fo", PStr "/elsewhere.json")]. split; reflexivity.
Defined.

(** ** More on fetching and rewriting a reference document *)

Lemma prefix_app_self (a b : string) : String.prefix a (a ++ b) = true.
Proof.
  induction a as [|c a IH]; simpl.
  - now destruct b.
  - destruct (Ascii.ascii_dec c c); [assumption | congruence].
Qed.

Lemma replace_scan_skip (old new x rest : string) :
  PyStr.replace_scan old new (x ++ rest) (String.length x)
  = PyStr.replace_scan old new rest O.
Proof.
  induction x as [|c x IH]; [reflexivity|]. exact IH.
Qed.

(** An occurrence at the very start is replaced, and the scan goes on after
    it. *)
Lemma replace_at_start (c : ascii) (old new rest : string) :
  PyStr.replace (String c old) new (String c old ++ rest)
  = new ++ PyStr.replace (String c old) new rest.
Proof.
  unfold PyStr.replace.
  change (String c old ++ rest) with (String c (old ++ rest)).
  cbn [PyStr.replace_scan].
  change (String c (old ++ rest)) with (String c old ++ rest).
  rewrite prefix_app_self. cbn [String.length Nat.pred].
  now rewrite replace_scan_skip.
Qed.

(** X12.  When the localised path is an existing file the reference document
    is read from it and the network is not used: the file test and the read
    are the only external calls, and the outcome is that of reading the file
    as JSON and running the rewriting step on the document read. *)
Theorem fetch_reads_local_file (E : Env) (h : string) (w : world) :
  let href_local := PyStr.replace "https://dap.ceda.ac.uk" "" h in
  os_path_isfile E (clock w) href_local = true ->
  _fetch_kerchunk_make_local E (PStr h) w
  = (match json_load_file E (S (clock w)) href_local with
     | Raise e => Raise e
     | Return doc => rewrite_refs doc
     end,
     record_call (EvLoadFile href_local) (record_call (EvIsFile href_local) w)).
Proof.
  intros href_local Hfile.
  unfold _fetch_kerchunk_make_local. run_m. fold href_local. rewrite Hfile.
  cbn [negb]. rewrite clock_record_call.
  now destruct (json_load_file E (S (clock w)) href_local).
Qed.

Lemma fetch_reads_local_file_witness :
  _fetch_kerchunk_make_local Samples.env_no_network (PStr Samples.remote_href) Samples.w0
  = (Return (PDict [("refs", PDict [])]),
     {| calls := [EvLoadFile "/x/y.json"; EvIsFile "/x/y.json"]; log := [] |}).
Proof.
  apply (@fetch_reads_local_file Samples.env_no_network Samples.remote_href Samples.w0
           eq_refl).
Defined.

(** X13.  Only answers are retried, not exceptions: when the localised path
    is not a file and a GET raises, after any number of answers other than
    200 before it, the exception leaves the function at once and no further
    request is made. *)
Theorem fetch_get_exception_not_retried
    (E : Env) (h : string) (w : world) (j : nat) (e : exn) :
  let href_local := PyStr.replace "https://dap.ceda.ac.uk" "" h in
  let w1 := record_call (EvIsFile href_local) w in
  os_path_isfile E (clock w) href_local = false ->
  (j < 3)%nat ->
  (forall i, (i < j)%nat ->
     exists r, requests_get E (S (clock w) + i) h = Return r /\ status_code r <> 200) ->
  requests_get E (S (clock w) + j) h = Raise e ->
  _fetch_kerchunk_make_local E (PStr h) w = (Raise e, after_gets h (S j) w1).
Proof.
  intros href_local w1 Hfile Hj Hfail He.
  unfold _fetch_kerchunk_make_local. run_m. fold href_local. rewrite Hfile.
  cbn [negb]. fold w1.
  destruct (@fetch_loop_failures E h j 3 {| attempts := 0; success := false; resp := None |}
              w1 eq_refl ltac:(cbn [attempts]; lia) ltac:(lia) Hfail)
    as [st [Hloop [Hatt Hsucc]]].
  rewrite Hloop. cbn [attempts] in Hatt.
  destruct (3 - j)%nat as [|b] eqn:Hb; [lia|].
  rewrite fetch_loop_step
    by (rewrite Hsucc; apply andb_true_iff; split; [apply Z.ltb_lt; lia | reflexivity]).
  rewrite clock_after_gets, Nat.add_comm.
  change (clock w1) with (S (clock w)). rewrite He. reflexivity.
Qed.

Lemma fetch_get_exception_not_retried_witness :
  _fetch_kerchunk_make_local Samples.env_dropped (PStr Samples.remote_href) Samples.w0
  = (Raise (OtherError "ConnectionError"),
     {| calls := [EvGet Samples.remote_href; EvGet Samples.remote_href;
                  EvIsFile "/x/y.json"];
        log := [] |}).
Proof.
  apply (@fetch_get_exception_not_retried Samples.env_dropped Samples.remote_href
           Samples.w0 1 (OtherError "ConnectionError") eq_refl).
  - lia.
  - intros i Hi. assert (i = O) as -> by lia.
    exists {| status_code := 503; text := "" |}. split; [reflexivity | discriminate].
  - reflexivity.
Defined.

(** X14.  The local path of a file on the CEDA host is the path part of its
    URL: for an href [https://dap.ceda.ac.uk] followed by a path in which the
    host prefix does not occur again, the file tested, and read when present,
    is that path. *)
Theorem fetch_local_path_of_url (E : Env) (path : string) (w : world) :
  PyStr.contains "https://dap.ceda.ac.uk" path = false ->
  os_path_isfile E (clock w) path = true ->
  _fetch_kerchunk_make_local E (PStr ("https://dap.ceda.ac.uk" ++ path)) w
  = (match json_load_file E (S (clock w)) path with
     | Raise e => Raise e
     | Return doc => rewrite_refs doc
     end,
     record_call (EvLoadFile path) (record_call (EvIsFile path) w)).
Proof.
  intros Hc Hfile.
  assert (Hpath : PyStr.replace "https://dap.ceda.ac.uk" "" ("https://dap.ceda.ac.uk" ++ path)
                  = path).
  { rewrite replace_at_start. cbn [append].
    apply replace_absent; [discriminate | assumption]. }
  pose proof (@fetch_reads_local_file E ("https://dap.ceda.ac.uk" ++ path) w) as Hread.
  cbv zeta in Hread. rewrite Hpath in Hread. now apply Hread.
Qed.

Lemma fetch_local_path_of_url_witness :
  _fetch_kerchunk_make_local Samples.env_no_network
    (PStr ("https://dap.ceda.ac.uk" ++ "/x/y.json")) Samples.w0
  = (Return (PDict [("refs", PDict [])]),
     {| calls := [EvLoadFile "/x/y.json"; EvIsFile "/x/y.json"]; log := [] |}).
Proof.
  apply (@fetch_local_path_of_url Samples.env_no_network "/x/y.json" Samples.w0
           eq_refl eq_refl).
Defined.

(** X15.  In a reference document as the rewriting step expects it, an entry
    [[url, offset, length]] whose URL is [https://dap.ceda.ac.uk/] followed by
    a path in which that prefix does not occur again comes out as
    [["/" ++ path, offset, length]]: scheme and host are dropped, the leading
    slash, the offset and the length are kept. *)
Theorem rewrite_refs_url_to_path
    (top inner : pydict) (k path : string) (offset length : pyval) :
  dict_get "refs" top = Some (PDict inner) ->
  dict_wf inner ->
  kerchunk_refs inner ->
  dict_get k inner = Some (PList [PStr ("https://dap.ceda.ac.uk/" ++ path); offset; length]) ->
  PyStr.contains "https://dap.ceda.ac.uk/" path = false ->
  exists inner',
    rewrite_refs (PDict top) = Return (PDict (dict_set "refs" (PDict inner') top)) /\
    dict_get k inner' = Some (PList [PStr ("/" ++ path); offset; length]).
Proof.
  intros Hrefs Hwf Hk Hg Hc.
  destruct (@rewrite_loop_localizes (keys inner) inner Hwf) as [inner' [Hloop [_ [Hvis _]]]].
  - intros k' Hin Hnone. now apply dict_get_None_keys in Hnone.
  - assumption.
  - exists inner'. split.
    + unfold rewrite_refs. now rewrite Hrefs, Hloop.
    + rewrite Hvis, Hg.
      * cbn [option_map localized]. rewrite replace_at_start.
        rewrite replace_absent; [reflexivity | discriminate | assumption].
      * destruct (in_dec string_dec k (keys inner)) as [Hin|Hnin]; [assumption|].
        apply dict_get_None_keys in Hnin. congruence.
Qed.

Lemma rewrite_refs_url_to_path_witness :
  exists inner',
    rewrite_refs Samples.refs_doc = Return (PDict [("refs", PDict inner')]) /\
    dict_get "a" inner' = Some (PList [PStr "/x/y"; PInt 10; PInt 20]).
Proof.
  destruct (@rewrite_refs_url_to_path
              [("refs", PDict [("a", PList [PStr "https://dap.ceda.ac.uk/x/y"; PInt 10; PInt 20]);
                               ("b", PStr "scalar")])]
              [("a", PList [PStr "https://dap.ceda.ac.uk/x/y"; PInt 10; PInt 20]);
               ("b", PStr "scalar")]
              "a" "x/y" (PInt 10) (PInt 20)
              eq_refl
              ltac:(repeat constructor; simpl; intuition discriminate))
    as [inner' [Hret Hget]].
  - intros k a b c. cbn [dict_get keqb Key_string].
    destruct (String.eqb k "a").
    + intros [= <- _ _]. now exists "https://dap.ceda.ac.uk/x/y".
    + destruct (String.eqb k "b"); discriminate.
  - reflexivity.
  - reflexivity.
  - exists inner'. split; [exact Hret | exact Hget].
Defined.

(** X16.  The rewriting step touches the [refs] entry only: the document it
    returns has the keys of the document it was given, in the same order, and
    binds every key other than [refs] to the value it had. *)
Theorem rewrite_refs_keeps_document (top : pydict) (out : pyval) :
  rewrite_refs (PDict top) = Return out ->
  exists top',
    out = PDict top' /\
    keys top' = keys top /\
    forall k, k <> "refs" -> dict_get k top' = dict_get k top.
Proof.
  unfold rewrite_refs.
  destruct (dict_get "refs" top) as [v|] eqn:Hrefs; [|discriminate].
  destruct v as [| | | | |inner]; try discriminate.
  destruct (rewrite_loop (keys inner) inner) as [e|inner']; [discriminate|].
  intros [= <-]. exists (dict_set "refs" (PDict inner') top).
  split; [reflexivity|]. split.
  - rewrite keys_set. unfold dict_mem. now rewrite Hrefs.
  - intros k Hk. apply dict_get_set_other. congruence.
Qed.

Lemma rewrite_refs_keeps_document_witness :
  exists top',
    PDict [("version", PInt 1);
           ("refs", PDict [("a", PList [PStr "/x/y"; PInt 10; PInt 20])])] = PDict top' /\
    keys top' = ["version"; "refs"] /\
    dict_get "version" top' = Some (PInt 1).
Proof.
  destruct (@rewrite_refs_keeps_document
              [("version", PInt 1);
               ("refs", PDict [("a", PList [PStr "https://dap.ceda.ac.uk/x/y"; PInt 10; PInt 20])])]
              _ eq_refl) as [top' [Hout [Hkeys Hget]]].
  exists top'. split; [exact Hout|]. split; [exact Hkeys|].
  exact (Hget "version" ltac:(discriminate)).
Defined.

(** ** More on clusters *)

Section ClusterFacts.
Implicit Types (d acc : dict (option string) P.product).

Let store acc (p : P.product) := dict_set (P.id p) p acc.

Lemma dict_set_In (k0 : option string) (v : P.product) d k p :
  In (k, p) (dict_set k0 v d) -> (k, p) = (k0, v) \/ In (k, p) d.
Proof.
  induction d as [|[k' v'] d IH]; cbn [dict_set].
  - intros [H|[]]. left. now symmetry.
  - destruct (keqb k0 k') eqn:Hk.
    + apply (keqb_eq k0 k') in Hk. subst k'.
      intros [H|H]; [left; now symmetry | right; now right].
    + intros [H|H]; [right; now left|].
      destruct (IH H) as [H'|H']; [now left | right; now right].
Qed.

Lemma store_all_keyed (l : list P.product) acc :
  keyed_by_id acc -> keyed_by_id (fold_left store l acc).
Proof.
  revert acc. induction l as [|q l IH]; intros acc Hacc; [assumption|].
  cbn [fold_left]. apply IH. intros k p Hin.
  destruct (dict_set_In _ _ _ _ _ Hin) as [[= -> ->]|Hin']; [reflexivity | now apply Hacc].
Qed.

Lemma dict_get_In_wf d (k : option string) (p : P.product) :
  dict_wf d -> In (k, p) d -> dict_get k d = Some p.
Proof.
  induction d as [|[k' v'] d IH]; intros Hwf Hin; [destruct Hin|].
  cbn [dict_get]. destruct Hin as [[= -> ->]|Hin].
  - now rewrite (keqb_refl k).
  - rewrite keqb_neq.
    + apply IH; [eapply dict_wf_tail; eassumption | assumption].
    + intros ->. unfold dict_wf in Hwf. cbn in Hwf. inversion Hwf as [|? ? Hfresh _]; subst.
      apply Hfresh. change k' with (fst (k', p)). now apply in_map.
Qed.

(** In a mapping without repeated keys the key and the value at one
    position belong together. *)
Lemma dict_get_nth d (n : nat) (k : option string) (p : P.product) :
  dict_wf d ->
  nth_error (keys d) n = Some k ->
  nth_error (values d) n = Some p ->
  dict_get k d = Some p.
Proof.
  intros Hwf Hk Hv. apply dict_get_In_wf; [assumption|].
  revert n Hk Hv. clear Hwf. induction d as [|[k' v'] d IH]; intros [|n] Hk Hv;
    try discriminate.
  - cbn in Hk, Hv. injection Hk as ->. injection Hv as ->. now left.
  - right. apply (IH n); assumption.
Qed.

Lemma dict_set_fresh (k : option string) (v : P.product) d :
  dict_get k d = None -> dict_set k v d = (d ++ [(k, v)])%list.
Proof.
  induction d as [|[k' v'] d IH]; cbn [dict_set dict_get app]; [reflexivity|].
  destruct (keqb k k'); [discriminate|]. intros Hg. now rewrite IH.
Qed.

(** Storing the values of a mapping keyed by id, in order, builds the
    mapping again. *)
Lemma store_values_rebuilds d acc :
  keyed_by_id d ->
  NoDup (keys acc ++ keys d) ->
  fold_left store (values d) acc = (acc ++ d)%list.
Proof.
  revert acc. induction d as [|[k p] d IH]; intros acc Hkeyed Hnd.
  - cbn. now rewrite app_nil_r.
  - cbn [values map fold_left snd]. fold (values d).
    assert (Hid : P.id p = k) by (apply Hkeyed; now left).
    unfold store at 2. rewrite Hid.
    rewrite dict_set_fresh.
    + rewrite IH.
      * now rewrite <- app_assoc.
      * intros k' p' Hin. apply Hkeyed. now right.
      * unfold keys in *. rewrite map_app. cbn [map fst]. rewrite <- app_assoc. exact Hnd.
    + apply dict_get_None_keys. intros Hin.
      cbn [keys map fst] in Hnd. apply NoDup_remove_2 in Hnd.
      apply Hnd. apply in_or_app. now left.
Qed.

Lemma filter_all {A} (f : A -> bool) (l : list A) :
  (forall x, In x l -> f x = true) -> filter f l = l.
Proof.
  induction l as [|x l IH]; intros Hall; [reflexivity|].
  cbn. rewrite (Hall x (or_introl eq_refl)). f_equal. apply IH.
  intros y Hy. apply Hall. now right.
Qed.
End ClusterFacts.

Lemma cluster_init_wf (E : Env) (entries : list C.entry) (parent_id : option string)
    (meta : pyval) (local_only show_unreachable : bool) (c : C.cluster) :
  C.__init__ E entries parent_id meta local_only show_unreachable = Return c ->
  dict_wf (C._products c) /\ keyed_by_id (C._products c).
Proof.
  intros Hc. rewrite (cluster_init_products _ _ _ _ _ _ Hc), add_entry_flattened.
  split.
  - apply store_all_wf. constructor.
  - apply store_all_keyed. intros k p [].
Qed.

(** X17.  In a cluster built by the constructor, [cluster[i]] for an integer
    [i] that fits the index size is the product at position [i] of the
    mapping, in insertion order, negative positions counting from the end; a
    position outside the mapping raises [IndexError] as a list index out of
    range, and an integer that does not fit the index size raises
    [IndexError] for that reason. *)
Theorem cluster_position_indexing
    (E : Env) (entries : list C.entry) (parent_id : option string)
    (meta : pyval) (local_only show_unreachable : bool) (c : C.cluster) (i : Z) :
  C.__init__ E entries parent_id meta local_only show_unreachable = Return c ->
  let n := Z.of_nat (List.length (C._products c)) in
  let j := if i <? 0 then i + n else i in
  (- ssize_max - 1 <= i <= ssize_max -> 0 <= j < n ->
   exists p, nth_error (values (C._products c)) (Z.to_nat j) = Some p /\
             C.__getitem__ c (C.Pos i) = Return p) /\
  (- ssize_max - 1 <= i <= ssize_max -> ~ 0 <= j < n ->
   C.__getitem__ c (C.Pos i) = Raise (IndexError [Lit "list index out of range"])) /\
  (~ - ssize_max - 1 <= i <= ssize_max ->
   C.__getitem__ c (C.Pos i)
   = Raise (IndexError [Lit "cannot fit 'int' into an index-sized integer"])).
Proof.
  intros Hc n j. destruct (cluster_init_wf _ _ _ _ _ _ Hc) as [Hwf _].
  assert (Hlen : List.length (keys (C._products c)) = List.length (C._products c))
    by apply length_map.
  assert (Hfits : - ssize_max - 1 <= i <= ssize_max ->
                  (i <? - ssize_max - 1) || (ssize_max <? i) = false).
  { intros Hi. apply orb_false_iff. split; apply Z.ltb_ge; lia. }
  unfold C.__getitem__, list_index. rewrite Hlen. fold n. fold j.
  split; [|split].
  - intros Hi Hj. rewrite (Hfits Hi).
    assert (Hg : (j <? 0) || (n <=? j) = false).
    { apply orb_false_iff. split; [apply Z.ltb_ge | apply Z.leb_gt]; lia. }
    rewrite Hg.
    assert (Hlt : (Z.to_nat j < List.length (C._products c))%nat) by lia.
    destruct (nth_error (keys (C._products c)) (Z.to_nat j)) as [k|] eqn:Hk.
    + destruct (nth_error (values (C._products c)) (Z.to_nat j)) as [p|] eqn:Hp.
      * exists p. split; [reflexivity|].
        now rewrite (dict_get_nth _ Hwf Hk Hp).
      * apply nth_error_None in Hp. unfold values in Hp. rewrite length_map in Hp. lia.
    + apply nth_error_None in Hk. lia.
  - intros Hi Hj. rewrite (Hfits Hi).
    assert (Hg : (j <? 0) || (n <=? j) = true).
    { apply orb_true_iff.
      destruct (Z.ltb_spec j 0); [now left | right; apply Z.leb_le; lia]. }
    now rewrite Hg.
  - intros Hi.
    assert (Hg : (i <? - ssize_max - 1) || (ssize_max <? i) = true).
    { apply orb_true_iff.
      destruct (Z.ltb_spec i (- ssize_max - 1)); [now left | right; apply Z.ltb_lt; lia]. }
    now rewrite Hg.
Qed.

Lemma cluster_position_indexing_witness :
  C.__getitem__ Samples.cluster_ab (C.Pos (-1))
  = Return (Samples.product_of (Some "b") (Some "CFA") "all") /\
  C.__getitem__ Samples.cluster_ab (C.Pos 2)
  = Raise (IndexError [Lit "list index out of range"]) /\
  C.__getitem__ Samples.cluster_ab (C.Pos (2 ^ 70))
  = Raise (IndexError [Lit "cannot fit 'int' into an index-sized integer"]).
Proof.
  assert (Hinit :
    C.__init__ Samples.env_local
      [C.EProduct (Samples.product_of (Some "a") (Some "kerchunk") "all");
       C.EProduct (Samples.product_of (Some "b") (Some "CFA") "all")]
      (Some "item") PNone false false = Return Samples.cluster_ab) by reflexivity.
  split; [|split].
  - destruct (proj1 (@cluster_position_indexing _ _ _ _ _ _ _ (-1) Hinit)
                ltac:(cbn; lia) ltac:(cbn; lia)) as [p [Hp Hget]].
    cbn in Hp. injection Hp as <-. exact Hget.
  - apply (proj1 (proj2 (@cluster_position_indexing _ _ _ _ _ _ _ 2 Hinit)));
      cbn; lia.
  - apply (proj2 (proj2 (@cluster_position_indexing _ _ _ _ _ _ _ (2 ^ 70) Hinit))).
    cbn. lia.
Defined.

(** X18.  A cluster built by the constructor hands out every product under
    the product's own id: whatever [cluster[...]] returns, by position or by
    id, indexing the cluster with the id of that product returns the same
    product, and that product is one of those the entries stand for. *)
Theorem cluster_index_by_own_id
    (E : Env) (entries : list C.entry) (parent_id : option string)
    (meta : pyval) (local_only show_unreachable : bool) (c : C.cluster)
    (i : C.index) (p : P.product) :
  C.__init__ E entries parent_id meta local_only show_unreachable = Return c ->
  C.__getitem__ c i = Return p ->
  C.__getitem__ c (C.Id (P.id p)) = Return p /\ In p (flattened entries).
Proof.
  intros Hc Hi. destruct (cluster_init_wf _ _ _ _ _ _ Hc) as [Hwf Hkeyed].
  unfold C.__getitem__ in Hi.
  destruct (match i with
            | C.Pos z => list_index (keys (C._products c)) z
            | C.Id k' => Return k'
            end) as [e|k]; [discriminate|].
  destruct (dict_get k (C._products c)) as [q|] eqn:Hg; [|discriminate].
  injection Hi as ->.
  assert (Hid : P.id p = k) by (apply Hkeyed; now apply dict_get_In).
  split.
  - unfold C.__getitem__. now rewrite Hid, Hg.
  - rewrite (cluster_init_products _ _ _ _ _ _ Hc), add_entry_flattened, store_all_get in Hg.
    destruct (last_with_id k (flattened entries)) as [q|] eqn:Hl; [|discriminate].
    injection Hg as ->. now apply last_with_id_sound in Hl.
Qed.

Lemma cluster_index_by_own_id_witness :
  C.__getitem__ Samples.cluster_ab (C.Id (Some "a"))
  = Return (Samples.product_of (Some "a") (Some "kerchunk") "all").
Proof.
  apply (@cluster_index_by_own_id Samples.env_local
           [C.EProduct (Samples.product_of (Some "a") (Some "kerchunk") "all");
            C.EProduct (Samples.product_of (Some "b") (Some "CFA") "all")]
           (Some "item") PNone false false Samples.cluster_ab (C.Pos 0)
           (Samples.product_of (Some "a") (Some "kerchunk") "all")
           eq_refl eq_refl).
Defined.

(** X19.  [open_dataset] on a cluster never changes the cluster: whatever
    the index, the mode and the options, and whether the call returns or
    raises, the cluster after the call is the cluster before it, products
    included. *)
Theorem cluster_open_keeps_cluster
    (E : Env) (c : C.cluster) (i : C.index) (mode : string)
    (local_only : bool) (kwargs : pydict) (w : world) :
  fst (snd (C.open_dataset E i mode local_only kwargs (c, w))) = c.
Proof.
  unfold C.open_dataset.
  destruct (negb (String.eqb mode "xarray")); [reflexivity|].
  run_m.
  destruct (match i with
            | C.Pos z => list_index (keys (C._products c)) z
            | C.Id k => Return k
            end) as [e|k]; [reflexivity|].
  run_m. destruct (dict_get k (C._products c)) as [p|] eqn:Hg; [|reflexivity].
  pose proof (keeps_open_dataset E (local_only || C._local_only c) kwargs p w) as Hkeep.
  destruct (P.open_dataset E (local_only || C._local_only c) kwargs (p, w))
    as [r [p' w']].
  cbn [fst snd] in Hkeep |- *. subst p'.
  rewrite (dict_set_same_value _ _ Hg). now destruct c.
Qed.

(** X20.  The [products] entry of a cluster's metadata counts the entries
    handed to the constructor, [None] entries and nested clusters included,
    not the products stored; it replaces any [products] entry of the caller's
    metadata, and every other key is bound as in the caller's metadata. *)
Theorem cluster_meta_counts_entries
    (E : Env) (entries : list C.entry) (parent_id : option string)
    (meta : pyval) (local_only show_unreachable : bool) (c : C.cluster) :
  C.__init__ E entries parent_id meta local_only show_unreachable = Return c ->
  dict_get "products" (C._meta c) = Some (PInt (Z.of_nat (List.length entries))) /\
  forall k, k <> "products" ->
            dict_get k (C._meta c)
            = match meta with
              | PDict m => dict_get k m
              | _ => None
              end.
Proof.
  unfold C.__init__. intros Hc.
  destruct (hash_id E parent_id) as [e|hashed]; [discriminate|].
  destruct (if truthy meta then meta else PDict []) as [| | | | |m] eqn:Hm; try discriminate.
  injection Hc as <-. cbn [C._meta]. split.
  - apply dict_get_set_same.
  - intros k Hk. rewrite dict_get_set_other by congruence.
    destruct (truthy meta) eqn:Ht.
    + now subst meta.
    + injection Hm as <-.
      destruct meta as [| | | | |[|kv m]]; try reflexivity. discriminate.
Qed.

Lemma cluster_meta_counts_entries_witness :
  exists c,
    C.__init__ Samples.env_local
      [C.ENone; C.ECluster Samples.cluster_x;
       C.EProduct (Samples.product_of (Some "a") (Some "kerchunk") "all")]
      (Some "item") (PDict [("products", PInt 0); ("search", PStr "s1")]) false false
    = Return c /\
    dict_get "products" (C._meta c) = Some (PInt 3) /\
    dict_get "search" (C._meta c) = Some (PStr "s1") /\
    keys (C._products c) = [Some "a"; Some "c"].
Proof.
  eexists. split; [reflexivity|].
  destruct (@cluster_meta_counts_entries Samples.env_local
              [C.ENone; C.ECluster Samples.cluster_x;
               C.EProduct (Samples.product_of (Some "a") (Some "kerchunk") "all")]
              (Some "item") (PDict [("products", PInt 0); ("search", PStr "s1")])
              false false _ eq_refl) as [Hcount Hother].
  split; [exact Hcount|].
  split; [exact (Hother "search" ltac:(discriminate)) | reflexivity].
Defined.

(** X21.  Flattening gives back what was put in: a cluster built by the
    constructor that hides none of its products, handed on its own to the
    constructor as a nested cluster, yields a cluster with the very same
    product mapping, in the same order. *)
Theorem cluster_flatten_round_trip
    (E : Env) (entries : list C.entry) (parent_id parent_id' : option string)
    (meta meta' : pyval) (local_only show_unreachable local_only' show_unreachable' : bool)
    (x c : C.cluster) :
  C.__init__ E entries parent_id meta local_only show_unreachable = Return x ->
  (forall p, In p (values (C._products x)) ->
             P.visibility p <> "unreachable" \/ C.show_unreachable x = true) ->
  C.__init__ E [C.ECluster x] parent_id' meta' local_only' show_unreachable' = Return c ->
  C._products c = C._products x.
Proof.
  intros Hx Hshown Hc. destruct (cluster_init_wf _ _ _ _ _ _ Hx) as [Hwf Hkeyed].
  rewrite (cluster_init_products _ _ _ _ _ _ Hc). cbn [fold_left C.add_entry].
  assert (Hview : C.products x = values (C._products x)).
  { unfold C.products. apply filter_all. intros p Hp.
    destruct (Hshown p Hp) as [Hv | Hs].
    - apply String.eqb_neq in Hv. now rewrite Hv.
    - rewrite Hs. apply orb_true_r. }
  rewrite Hview.
  apply (@store_values_rebuilds (C._products x) []); assumption.
Qed.

Lemma cluster_flatten_round_trip_witness :
  exists c,
    C.__init__ Samples.env_local [C.ECluster Samples.cluster_ab] (Some "outer") PNone
               true false = Return c /\
    C._products c = C._products Samples.cluster_ab.
Proof.
  eexists. split; [reflexivity|].
  apply (@cluster_flatten_round_trip Samples.env_local
           [C.EProduct (Samples.product_of (Some "a") (Some "kerchunk") "all");
            C.EProduct (Samples.product_of (Some "b") (Some "CFA") "all")]
           (Some "item") (Some "outer") PNone PNone false false true false
           Samples.cluster_ab _ eq_refl).
  - intros p [<-|[<-|[]]]; left; discriminate.
  - reflexivity.
Defined.

(** ** The local fallback, end to end *)

(** X22.  Opening a kerchunk product with [local_only=True] when the
    localised path is an existing file uses no network, whatever the
    product's visibility: the calls are the file test, the read,
    [fsspec.get_mapper] on the rewritten document (not on the href) and
    [xr.open_zarr], in that order, and the outcome is that of [xr.open_zarr],
    a missing-resource error being raised again with the href named. *)
Theorem open_local_only_from_disk
    (E : Env) (p : P.product) (kwargs mkw azk : pydict) (h : string)
    (doc doc' : pyval) (m : mapper) (w : world) :
  P.format_is (P._cloud_format p) "kerchunk" = true ->
  dict_get "href" (P._asset_stac p) = Some (PStr h) ->
  or_empty (dict_get "mapper_kwargs" (P._asset_stac p)) = PDict mkw ->
  dict_mem "fo" mkw = false ->
  or_empty (dict_get "open_zarr_kwargs" (P._asset_stac p)) = PDict azk ->
  let href_local := PyStr.replace "https://dap.ceda.ac.uk" "" h in
  os_path_isfile E (clock w) href_local = true ->
  json_load_file E (S (clock w)) href_local = Return doc ->
  rewrite_refs doc = Return doc' ->
  fsspec_get_mapper E (S (S (clock w))) doc' mkw = Return m ->
  let zarr_kwargs := dict_union (dict_union [("consolidated", PBool false)] azk) kwargs in
  P.open_dataset E true kwargs (p, w)
  = (match xr_open_zarr E (S (S (S (clock w)))) m zarr_kwargs with
     | Raise (FileNotFoundError _) =>
         Raise (FileNotFoundError
                  [Lit "The requested resource could not be located: "; Fmt (PStr h)])
     | r => r
     end,
     (p, {| calls := EvOpenZarr m zarr_kwargs :: EvGetMapper doc' mkw
                     :: EvLoadFile href_local :: EvIsFile href_local :: calls w;
            log := log w |})).
Proof.
  intros Hf Hh Hm Hfo Hz href_local Hfile Hload Hrw Hmap zarr_kwargs.
  assert (Hset : P.format_unset (P._cloud_format p) = false).
  { destruct (P._cloud_format p) as [s|]; [|discriminate]. cbn in Hf |- *.
    apply String.eqb_eq in Hf. now subst. }
  pose proof (@fetch_reads_local_file E h w Hfile) as Hfetch.
  fold href_local in Hfetch. rewrite Hload, Hrw in Hfetch.
  unfold P.open_dataset. run_m. rewrite Hset, andb_false_r, Hf.
  unfold P._open_kerchunk. run_m. rewrite Hh, Hm, Hz, Hfetch.
  cbn [py_splat]. rewrite Hfo.
  rewrite !clock_record_call, Hmap. cbn [_zarr_kwargs_default]. fold zarr_kwargs.
  destruct (xr_open_zarr E (S (S (S (clock w)))) m zarr_kwargs) as [e|d];
    [|reflexivity].
  destruct e; try reflexivity. now rewrite Hh.
Qed.

Lemma open_local_only_from_disk_witness :
  P.open_dataset Samples.env_no_network true []
    (Samples.product_of (Some "a") (Some "kerchunk") "local-only", Samples.w0)
  = (Return (Dataset 0),
     (Samples.product_of (Some "a") (Some "kerchunk") "local-only",
      {| calls := [EvOpenZarr (Mapper 0) [("consolidated", PBool false)];
                   EvGetMapper (PDict [("refs", PDict [])]) [];
                   EvLoadFile "/x/y.json"; EvIsFile "/x/y.json"];
         log := [] |})).
Proof.
  exact (@open_local_only_from_disk Samples.env_no_network
           (Samples.product_of (Some "a") (Some "kerchunk") "local-only")
           [] [] [] Samples.remote_href
           (PDict [("refs", PDict [])]) (PDict [("refs", PDict [])]) (Mapper 0) Samples.w0
           eq_refl eq_refl eq_refl eq_refl eq_refl eq_refl eq_refl eq_refl eq_refl).
Defined.
